(** * CareLog: the record service, its access-control filter and the chat store

    A shallow embedding of [modules/models.py], [modules/auth.py]
    ([CareLogService]) and [modules/chat.py] ([ChatService]), followed by
    the properties of the specification that concern them.

    Conventions of the embedding.
    - A Python [str] is a [string] whose characters are code points below
      256; the character classes are Python's on that range.
    - A [dict] keyed by strings is a [gmap string _]; the iteration order of
      the dict is not modelled.
    - The store [self._data] and the session [self.current_user] are passed
      explicitly: a method [m(self, args)] becomes
      [m : service -> args -> result * service].
    - What the methods draw from the environment (a salt from [os.urandom],
      a [uuid4], the clock, the text of the AI collaborator) is an argument.
    - A Python exception that escapes a method is a [Raise] result. *)

From Stdlib Require Import ZArith NArith String Ascii List Bool Lia.
From Stdlib Require Import Sorting.Sorted Sorting.Permutation.
From stdpp Require Import gmap strings list fin_maps.

Local Open Scope string_scope.
Local Open Scope Z_scope.

(** ** Python built-ins used by the service *)

Module Py.

Definition code (c : ascii) : N := N_of_ascii c.

Definition between (lo hi : N) (c : ascii) : bool :=
  (N.leb lo (code c) && N.leb (code c) hi)%bool.

(** [str.isspace] on one character. *)
Definition isspace (c : ascii) : bool :=
  (between 9 13 c || between 28 32 c || between 133 133 c
   || between 160 160 c)%bool.

(** [str.isupper] on one character. *)
Definition isupper (c : ascii) : bool :=
  (between 65 90 c || between 192 214 c || between 216 222 c)%bool.

(** [str.islower] on one character. *)
Definition islower (c : ascii) : bool :=
  (between 97 122 c || between 170 170 c || between 181 181 c
   || between 186 186 c || between 223 246 c || between 248 255 c)%bool.

(** [str.isdigit] on one character. *)
Definition isdigit (c : ascii) : bool :=
  (between 48 57 c || between 178 179 c || between 185 185 c)%bool.

(** [str.isalnum] on one character. *)
Definition isalnum (c : ascii) : bool :=
  (between 48 57 c || between 65 90 c || between 97 122 c
   || between 170 170 c || between 178 179 c || between 181 181 c
   || between 185 186 c || between 188 190 c || between 192 214 c
   || between 216 246 c || between 248 255 c)%bool.

(** [any(p(c) for c in s)]. *)
Fixpoint any (p : ascii -> bool) (s : string) : bool :=
  match s with
  | EmptyString => false
  | String c s' => (p c || any p s')%bool
  end.

(** [all(p(c) for c in s)]. *)
Fixpoint all (p : ascii -> bool) (s : string) : bool :=
  match s with
  | EmptyString => true
  | String c s' => (p c && all p s')%bool
  end.

(** [s.lstrip()], [s.rstrip()] and [s.strip()]. *)
Fixpoint lstrip (s : string) : string :=
  match s with
  | EmptyString => EmptyString
  | String c s' => if isspace c then lstrip s' else s
  end.

Fixpoint rstrip (s : string) : string :=
  match s with
  | EmptyString => EmptyString
  | String c s' =>
      match rstrip s' with
      | EmptyString => if isspace c then EmptyString else String c EmptyString
      | r => String c r
      end
  end.

Definition strip (s : string) : string := rstrip (lstrip s).

(** [s.lower()], character by character. *)
Definition lower_char (c : ascii) : ascii :=
  if (between 65 90 c || between 192 214 c || between 216 222 c)%bool
  then ascii_of_N (code c + 32) else c.

Fixpoint lower (s : string) : string :=
  match s with
  | EmptyString => EmptyString
  | String c s' => String (lower_char c) (lower s')
  end.

(** [needle in hay] on strings. *)
Fixpoint str_in (needle hay : string) : bool :=
  (String.prefix needle hay ||
   match hay with
   | EmptyString => false
   | String _ hay' => str_in needle hay'
   end)%bool.

(** Truth value of a string: [bool(s)]. *)
Definition truthy (s : string) : bool :=
  match s with EmptyString => false | _ => true end.

(** [l.remove(x)] for an [x] that occurs in [l]: the first occurrence
    goes. *)
Fixpoint remove (x : string) (l : list string) : list string :=
  match l with
  | [] => []
  | y :: l' => if decide (y = x) then l' else y :: remove x l'
  end.

(** [l[start:]] for an arbitrary integer [start]. *)
Definition slice_from {A} (start : Z) (l : list A) : list A :=
  let n := Z.of_nat (length l) in
  let st := if start <? 0 then Z.max 0 (n + start) else Z.min start n in
  drop (Z.to_nat st) l.

(** [l.sort(key=key)] with string keys: Python's sort is stable, and a
    stable sort has one result, the one of this insertion sort. *)
Section Sort.
Context {A : Type} (key : A -> string).

Fixpoint insert_by (x : A) (l : list A) : list A :=
  match l with
  | [] => [x]
  | y :: l' =>
      if String.leb (key x) (key y) then x :: y :: l'
      else y :: insert_by x l'
  end.

Fixpoint sort_by (l : list A) : list A :=
  match l with
  | [] => []
  | x :: l' => insert_by x (sort_by l')
  end.
End Sort.

(** An exception that escapes a method, and the outcome of a call. *)
Inductive exn := KeyError (key : string) | AttributeError (attr : string).

Inductive result (A : Type) :=
| Ok (a : A)
| Raise (e : exn).
Arguments Ok {A} a.
Arguments Raise {A} e.

End Py.

(** ** Data model *)

(** [modules/models.py], class [User]: the session object kept in
    [CareLogService.current_user]. *)
Module User.
Record t := mk {
  user_id : string;
  username : string;
  password_hash : string;
  role : string;
  full_name : string;
  dob : string;
  sex : string;
  pronouns : string;
  bio : string
}.
End User.

(** A stored user record, the dict built by [register_user]. The salt and
    the assignment list are read with [.get] by the service, so both may be
    absent ([None]) in a record that did not come from [register_user]. *)
Module UserData.
Record t := mk {
  username : string;
  password_hash : string;
  role : string;
  salt : option string;
  status : string;
  full_name : string;
  dob : string;
  sex : string;
  pronouns : string;
  bio : string;
  assigned_clinicians : option (list string)
}.

(** [data.get('assigned_clinicians', [])]. *)
Definition assigned (d : t) : list string :=
  default [] (assigned_clinicians d).

Definition set_assigned (l : list string) (d : t) : t :=
  mk (username d) (password_hash d) (role d) (salt d) (status d)
     (full_name d) (dob d) (sex d) (pronouns d) (bio d) (Some l).

Definition set_status (st : string) (d : t) : t :=
  mk (username d) (password_hash d) (role d) (salt d) st
     (full_name d) (dob d) (sex d) (pronouns d) (bio d)
     (assigned_clinicians d).
End UserData.

(** The nested AI-feedback object of a note. *)
Module Feedback.
Record t := mk { text : string; status : string }.
End Feedback.

(** [modules/models.py], class [PatientNote]; the store keeps its
    [__dict__], to which the feedback lifecycle adds ['ai_feedback']. *)
Module Note.
Record t := mk {
  note_id : string;
  hospital_id : string;
  patient_id : string;
  author_id : string;
  timestamp : string;
  mood : Z;
  pain : Z;
  appetite : Z;
  notes : string;
  diagnoses : string;
  source : string;
  is_private : bool;
  hidden_from_patient : bool;
  ai_feedback : option Feedback.t
}.

Definition set_ai_feedback (f : option Feedback.t) (n : t) : t :=
  mk (note_id n) (hospital_id n) (patient_id n) (author_id n) (timestamp n)
     (mood n) (pain n) (appetite n) (notes n) (diagnoses n) (source n)
     (is_private n) (hidden_from_patient n) f.

(** One key of the dict passed to [update_note]. *)
Inductive assignment :=
| SetNotes (v : string)
| SetDiagnoses (v : string)
| SetHiddenFromPatient (v : bool)
| SetIsPrivate (v : bool)
| SetMood (v : Z)
| SetPain (v : Z)
| SetAppetite (v : Z).

Definition assign (n : t) (a : assignment) : t :=
  match a with
  | SetNotes v =>
      mk (note_id n) (hospital_id n) (patient_id n) (author_id n)
         (timestamp n) (mood n) (pain n) (appetite n) v (diagnoses n)
         (source n) (is_private n) (hidden_from_patient n) (ai_feedback n)
  | SetDiagnoses v =>
      mk (note_id n) (hospital_id n) (patient_id n) (author_id n)
         (timestamp n) (mood n) (pain n) (appetite n) (notes n) v
         (source n) (is_private n) (hidden_from_patient n) (ai_feedback n)
  | SetHiddenFromPatient v =>
      mk (note_id n) (hospital_id n) (patient_id n) (author_id n)
         (timestamp n) (mood n) (pain n) (appetite n) (notes n) (diagnoses n)
         (source n) (is_private n) v (ai_feedback n)
  | SetIsPrivate v =>
      mk (note_id n) (hospital_id n) (patient_id n) (author_id n)
         (timestamp n) (mood n) (pain n) (appetite n) (notes n) (diagnoses n)
         (source n) v (hidden_from_patient n) (ai_feedback n)
  | SetMood v =>
      mk (note_id n) (hospital_id n) (patient_id n) (author_id n)
         (timestamp n) v (pain n) (appetite n) (notes n) (diagnoses n)
         (source n) (is_private n) (hidden_from_patient n) (ai_feedback n)
  | SetPain v =>
      mk (note_id n) (hospital_id n) (patient_id n) (author_id n)
         (timestamp n) (mood n) v (appetite n) (notes n) (diagnoses n)
         (source n) (is_private n) (hidden_from_patient n) (ai_feedback n)
  | SetAppetite v =>
      mk (note_id n) (hospital_id n) (patient_id n) (author_id n)
         (timestamp n) (mood n) (pain n) v (notes n) (diagnoses n)
         (source n) (is_private n) (hidden_from_patient n) (ai_feedback n)
  end.

(** [note.update(updated_data)]. *)
Definition update (n : t) (updated_data : list assignment) : t :=
  fold_left assign updated_data n.
End Note.

(** The alert dict built by [add_note]. *)
Module Alert.
Record t := mk {
  alert_id : string;
  patient_id : string;
  timestamp : string;
  status : string
}.
End Alert.

(** The message dict built by [ChatService._build_message]; the direct
    channel adds ['clinician_username']. *)
Module Message.
Record t := mk {
  message_id : string;
  timestamp : string;
  sender : string;
  sender_role : string;
  text : string;
  channel : string;
  patient_username : string;
  clinician_username : option string
}.
End Message.

(** [hospital['chats']]: the general threads by patient, the direct
    threads by patient and then by clinician. *)
Module Chats.
Record t := mk {
  general : gmap string (list Message.t);
  direct : gmap string (gmap string (list Message.t))
}.
Definition empty : t := mk ∅ ∅.
End Chats.

(** One entry of [self._data['hospitals']]. *)
Module Hospital.
Record t := mk {
  users : gmap string UserData.t;
  notes : list Note.t;
  alerts : list Alert.t;
  chats : Chats.t
}.

(** The dataset [register_user] and [_ensure_chat_store] create. *)
Definition empty : t := mk ∅ [] [] Chats.empty.

Definition set_users (u : gmap string UserData.t) (h : t) : t :=
  mk u (notes h) (alerts h) (chats h).
Definition set_notes (n : list Note.t) (h : t) : t :=
  mk (users h) n (alerts h) (chats h).
Definition set_alerts (a : list Alert.t) (h : t) : t :=
  mk (users h) (notes h) a (chats h).
Definition set_chats (c : Chats.t) (h : t) : t :=
  mk (users h) (notes h) (alerts h) c.
Definition set_general (g : gmap string (list Message.t)) (h : t) : t :=
  set_chats (Chats.mk g (Chats.direct (chats h))) h.
Definition set_direct (d : gmap string (gmap string (list Message.t)))
    (h : t) : t :=
  set_chats (Chats.mk (Chats.general (chats h)) d) h.
End Hospital.

(** The service object: the session and [self._data['hospitals']]. *)
Record service := mkService {
  current_user : option User.t;
  hospitals : gmap string Hospital.t
}.

(** The service right after start-up on an empty store. *)
Definition empty_service : service := mkService None ∅.

Definition set_hospital (hospital_id : string) (h : Hospital.t)
    (s : service) : service :=
  mkService (current_user s) (<[hospital_id := h]> (hospitals s)).

Definition set_current_user (u : option User.t) (s : service) : service :=
  mkService u (hospitals s).

(** [f"{username}_{role}"]. *)
Definition user_key (username role : string) : string :=
  username +:+ "_" +:+ role.

(** What a method returns when Python returns a string or a bool. *)
Inductive value :=
| Str (s : string)
| Bool (b : bool).

(** What [login] returns: the [User], a sentinel string, or [None]. *)
Inductive login_result :=
| LoginUser (u : User.t)
| LoginStr (s : string)
| LoginNone.

(** The [details] dict of [update_user_profile]: a key is absent or holds
    a string. *)
Module Details.
Record t := mk {
  full_name : option string;
  dob : option string;
  sex : option string;
  pronouns : option string;
  bio : option string;
  new_password : option string
}.
Definition empty : t := mk None None None None None None.
End Details.

(** The loops [for note in notes: if ...: <mutate note>; return True] of
    the service: [change] is applied to the first note it accepts. *)
Fixpoint update_first (change : Note.t -> option Note.t)
    (notes : list Note.t) : option (list Note.t) :=
  match notes with
  | [] => None
  | n :: rest =>
      match change n with
      | Some n' => Some (n' :: rest)
      | None => cons n <$> update_first change rest
      end
  end.

(** ** [modules/auth.py]: [CareLogService] *)

Section CareLogService.

(** [hashlib.sha256(x.encode()).hexdigest()], the external hash. *)
Variable sha256_hexdigest : string -> string.

Definition _is_strong_password (password : string) : bool :=
  if (String.length password <? 8)%nat then false
  else
    let has_upper := Py.any Py.isupper password in
    let has_lower := Py.any Py.islower password in
    let has_digit := Py.any Py.isdigit password in
    let has_special := Py.any (fun c => negb (Py.isalnum c)) password in
    has_upper && has_lower && has_digit && has_special.

(** [salt] is the value of [os.urandom(16).hex()]. *)
Definition register_user (s : service)
    (username password role hospital_id full_name dob sex pronouns bio : string)
    (salt : string) : value * service :=
  if negb (_is_strong_password password) then (Str "weak_password", s)
  else
    let is_new_hospital := bool_decide (hospitals s !! hospital_id = None) in
    if is_new_hospital && negb (bool_decide (role = "admin"))
    then (Str "hospital_not_found", s)
    else
      let hospital := default Hospital.empty (hospitals s !! hospital_id) in
      let s := set_hospital hospital_id hospital s in
      let hospital_users := Hospital.users hospital in
      let user_key := user_key username role in
      match hospital_users !! user_key with
      | Some _ => (Bool false, s)
      | None =>
          let password_hash := sha256_hexdigest (salt +:+ password) in
          let status :=
            if (bool_decide (role = "admin")
                || bool_decide (role = "clinician"))
               && negb is_new_hospital
            then "pending" else "approved" in
          let record :=
            UserData.mk username password_hash role (Some salt) status
                        full_name dob sex pronouns bio (Some []) in
          let s :=
            set_hospital hospital_id
              (Hospital.set_users (<[user_key := record]> hospital_users)
                                  hospital) s in
          if bool_decide (status = "pending") then (Str "pending", s)
          else (Bool true, s)
      end.

Definition login (s : service) (username password role hospital_id : string)
    : login_result * service :=
  match hospitals s !! hospital_id with
  | None => (LoginNone, s)
  | Some hospital_data =>
      match Hospital.users hospital_data !! user_key username role with
      | None => (LoginNone, s)
      | Some user_data =>
          if bool_decide (UserData.status user_data = "pending")
          then (LoginStr "pending", s)
          else
            match UserData.salt user_data with
            | None => (LoginStr "error", s)
            | Some salt =>
                if negb (Py.truthy salt) then (LoginStr "error", s)
                else
                  let hash_to_check :=
                    sha256_hexdigest (salt +:+ password) in
                  if bool_decide
                       (UserData.password_hash user_data = hash_to_check)
                  then
                    let u :=
                      User.mk (UserData.username user_data)
                              (UserData.username user_data)
                              (UserData.password_hash user_data)
                              (UserData.role user_data)
                              (UserData.full_name user_data)
                              (UserData.dob user_data)
                              (UserData.sex user_data)
                              (UserData.pronouns user_data)
                              (UserData.bio user_data) in
                    (LoginUser u, set_current_user (Some u) s)
                  else (LoginNone, s)
            end
      end
  end.

Definition logout (s : service) : service := set_current_user None s.

Definition add_note (s : service) (note : Note.t) (hospital_id : string)
    : service :=
  match hospitals s !! hospital_id with
  | None => s
  | Some hospital =>
      let hospital :=
        Hospital.set_notes (Hospital.notes hospital ++ [note]) hospital in
      let hospital :=
        if bool_decide (Note.pain note = 10)
           && bool_decide (Note.source note = "patient")
        then
          let alert :=
            Alert.mk (Note.note_id note) (Note.patient_id note)
                     (Note.timestamp note) "new" in
          Hospital.set_alerts (Hospital.alerts hospital ++ [alert]) hospital
        else hospital in
      set_hospital hospital_id hospital s
  end.

(** [generate_feedback] is the AI collaborator of [modules/gemini.py]. *)
Definition generate_and_store_ai_feedback (s : service)
    (note_id hospital_id : string)
    (generate_feedback : string -> Z -> Z -> Z -> option string)
    : bool * service :=
  match hospitals s !! hospital_id with
  | None => (false, s)
  | Some hospital =>
      let change (note : Note.t) :=
        if bool_decide (Note.note_id note = note_id) then
          match generate_feedback (Note.notes note) (Note.mood note)
                                  (Note.pain note) (Note.appetite note) with
          | Some feedback =>
              if Py.truthy feedback
              then Some (Note.set_ai_feedback
                           (Some (Feedback.mk feedback "pending")) note)
              else None
          | None => None
          end
        else None in
      match update_first change (Hospital.notes hospital) with
      | Some notes =>
          (true, set_hospital hospital_id (Hospital.set_notes notes hospital) s)
      | None => (false, s)
      end
  end.

Definition get_notes_for_patient (s : service)
    (hospital_id patient_id : string) : list Note.t :=
  let hospital_data := hospitals s !! hospital_id in
  let all_patient_notes :=
    filter (fun n => Note.patient_id n = patient_id)
           (from_option Hospital.notes [] hospital_data) in
  match current_user s with
  | Some u =>
      if bool_decide (User.role u = "clinician") then
        let patient_user_key := user_key patient_id "patient" in
        let patient_data :=
          hospital_data ≫= fun h => Hospital.users h !! patient_user_key in
        let assigned_clinicians :=
          from_option UserData.assigned [] patient_data in
        if bool_decide (User.username u ∈ assigned_clinicians) then
          filter (fun n => ¬ (Note.source n = "patient"
                              ∧ Note.is_private n = true))
                 all_patient_notes
        else []
      else all_patient_notes
  | None => all_patient_notes
  end.

(** The values of the [users] dict of a hospital, for the methods that
    iterate over them. *)
Definition user_values (s : service) (hospital_id : string)
    : list UserData.t :=
  (map_to_list (from_option Hospital.users ∅ (hospitals s !! hospital_id))).*2.

(** [current_user.role] is read at the first patient record met, and
    raises when nobody is logged in. *)
Definition get_all_patients (s : service) (hospital_id : string)
    : Py.result (list UserData.t) :=
  let patients :=
    filter (fun d => UserData.role d = "patient")
           (user_values s hospital_id) in
  match current_user s with
  | None =>
      match patients with
      | [] => Py.Ok []
      | _ :: _ => Py.Raise (Py.AttributeError "role")
      end
  | Some u =>
      if bool_decide (User.role u = "clinician") then
        Py.Ok (filter (fun d => User.username u ∈ UserData.assigned d)
                      patients)
      else Py.Ok patients
  end.

Definition has_pending_feedback (note : Note.t) : bool :=
  match Note.ai_feedback note with
  | Some f => bool_decide (Feedback.status f = "pending")
  | None => false
  end.

Definition get_pending_feedback (s : service) (hospital_id : string)
    : list Note.t :=
  let assigned_patient_ids :=
    match current_user s with
    | Some u =>
        if bool_decide (User.role u = "clinician") then
          match get_all_patients s hospital_id with
          | Py.Ok l => Some (UserData.username <$> l)
          | Py.Raise _ => None
          end
        else None
    | None => None
    end in
  match hospitals s !! hospital_id with
  | None => []
  | Some hospital =>
      let pending :=
        filter (fun note => has_pending_feedback note = true)
               (Hospital.notes hospital) in
      match assigned_patient_ids with
      | Some ids => filter (fun note => Note.patient_id note ∈ ids) pending
      | None => pending
      end
  end.

Definition approve_ai_feedback (s : service)
    (note_id hospital_id edited_feedback_text : string) : bool * service :=
  match hospitals s !! hospital_id with
  | None => (false, s)
  | Some hospital =>
      let change (note : Note.t) :=
        if bool_decide (Note.note_id note = note_id) then
          match Note.ai_feedback note with
          | Some _ =>
              Some (Note.set_ai_feedback
                      (Some (Feedback.mk edited_feedback_text "approved"))
                      note)
          | None => None
          end
        else None in
      match update_first change (Hospital.notes hospital) with
      | Some notes =>
          (true, set_hospital hospital_id (Hospital.set_notes notes hospital) s)
      | None => (false, s)
      end
  end.

Definition reject_ai_feedback (s : service) (note_id hospital_id : string)
    : bool * service :=
  match hospitals s !! hospital_id with
  | None => (false, s)
  | Some hospital =>
      let change (note : Note.t) :=
        if bool_decide (Note.note_id note = note_id) then
          match Note.ai_feedback note with
          | Some _ => Some (Note.set_ai_feedback None note)
          | None => None
          end
        else None in
      match update_first change (Hospital.notes hospital) with
      | Some notes =>
          (true, set_hospital hospital_id (Hospital.set_notes notes hospital) s)
      | None => (false, s)
      end
  end.

Definition delete_note (s : service) (note_id hospital_id : string)
    : bool * service :=
  match hospitals s !! hospital_id with
  | Some hospital =>
      let notes :=
        filter (fun n => Note.note_id n ≠ note_id) (Hospital.notes hospital) in
      (true, set_hospital hospital_id (Hospital.set_notes notes hospital) s)
  | None => (false, s)
  end.

Definition get_all_users (s : service) (hospital_id : string)
    : gmap string UserData.t :=
  from_option Hospital.users ∅ (hospitals s !! hospital_id).

(** The empty dict returned for a missing user is [None]. *)
Definition get_user_by_username (s : service)
    (hospital_id username role : string) : option UserData.t :=
  get_all_users s hospital_id !! user_key username role.

Definition get_pending_users (s : service) (hospital_id role : string)
    : list UserData.t :=
  filter (fun d => UserData.role d = role ∧ UserData.status d = "pending")
         (user_values s hospital_id).

Definition approve_user (s : service) (username role hospital_id : string)
    : bool * service :=
  match hospitals s !! hospital_id with
  | None => (false, s)
  | Some hospital =>
      let hospital_users := Hospital.users hospital in
      let user_key := user_key username role in
      match hospital_users !! user_key with
      | Some d =>
          (true,
           set_hospital hospital_id
             (Hospital.set_users
                (<[user_key := UserData.set_status "approved" d]>
                   hospital_users) hospital) s)
      | None => (false, s)
      end
  end.

(** [salt] is the value of [os.urandom(16).hex()], drawn only when the
    password changes. *)
Definition update_user_profile (s : service)
    (hospital_id username role : string) (details : Details.t)
    (salt : string) : bool * service :=
  let user_key := user_key username role in
  match hospitals s !! hospital_id with
  | None => (false, s)
  | Some hospital =>
      match Hospital.users hospital !! user_key with
      | None => (false, s)
      | Some user_data =>
          let full_name :=
            default (UserData.full_name user_data) (Details.full_name details) in
          let dob := default (UserData.dob user_data) (Details.dob details) in
          let sex := default (UserData.sex user_data) (Details.sex details) in
          let pronouns :=
            default (UserData.pronouns user_data) (Details.pronouns details) in
          let bio := default (UserData.bio user_data) (Details.bio details) in
          let '(new_salt, new_hash) :=
            match Details.new_password details with
            | Some new_password =>
                if Py.truthy new_password
                then (Some salt, sha256_hexdigest (salt +:+ new_password))
                else (UserData.salt user_data,
                      UserData.password_hash user_data)
            | None =>
                (UserData.salt user_data, UserData.password_hash user_data)
            end in
          let user_data :=
            UserData.mk (UserData.username user_data) new_hash
                        (UserData.role user_data) new_salt
                        (UserData.status user_data)
                        full_name dob sex pronouns bio
                        (UserData.assigned_clinicians user_data) in
          (true,
           set_hospital hospital_id
             (Hospital.set_users
                (<[user_key := user_data]> (Hospital.users hospital))
                hospital) s)
      end
  end.

Definition update_note (s : service) (hospital_id note_id : string)
    (updated_data : list Note.assignment) : bool * service :=
  match hospitals s !! hospital_id with
  | None => (false, s)
  | Some hospital =>
      let change (note : Note.t) :=
        if bool_decide (Note.note_id note = note_id)
        then Some (Note.update note updated_data) else None in
      match update_first change (Hospital.notes hospital) with
      | Some notes =>
          (true, set_hospital hospital_id (Hospital.set_notes notes hospital) s)
      | None => (false, s)
      end
  end.

(** The body of the loop of [delete_user] over the user records when a
    clinician goes: [assigned.remove(username)] on a patient record that
    lists the clinician. *)
Definition drop_assignment (username : string) (data : UserData.t)
    : UserData.t :=
  if bool_decide (UserData.role data = "patient") then
    let assigned := UserData.assigned data in
    if bool_decide (assigned ≠ [] ∧ username ∈ assigned)
    then UserData.set_assigned (Py.remove username assigned) data
    else data
  else data.

(** [[msg for msg in messages if msg.get('sender') != username]]. *)
Definition without_sender (username : string) (messages : list Message.t)
    : list Message.t :=
  filter (fun msg => Message.sender msg ≠ username) messages.

(** [if username in threads: del threads[username]]. *)
Definition drop_thread (username : string)
    (threads : gmap string (list Message.t)) : gmap string (list Message.t) :=
  delete username threads.

(** The inner loop over [threads.items()] when an admin goes. *)
Definition strip_threads (username : string)
    (threads : gmap string (list Message.t)) : gmap string (list Message.t) :=
  without_sender username <$> threads.

Definition is_current_user (s : service) (username role : string) : bool :=
  match current_user s with
  | Some u =>
      bool_decide (User.username u = username)
      && bool_decide (User.role u = role)
  | None => false
  end.

Definition delete_user (s : service) (hospital_id username role : string)
    : bool * service :=
  match hospitals s !! hospital_id with
  | None => (false, s)
  | Some hospital =>
      let hospital_users := Hospital.users hospital in
      let user_key := user_key username role in
      match hospital_users !! user_key with
      | None => (false, s)
      | Some _ =>
          if is_current_user s username role then (false, s)
          else
            let hospital_users := delete user_key hospital_users in
            let notes := Hospital.notes hospital in
            let general := Chats.general (Hospital.chats hospital) in
            let direct := Chats.direct (Hospital.chats hospital) in
            let hospital :=
              if bool_decide (role = "patient") then
                Hospital.mk hospital_users
                  (filter (fun n => Note.patient_id n ≠ username) notes)
                  (Hospital.alerts hospital)
                  (Chats.mk (delete username general)
                            (delete username direct))
              else if bool_decide (role = "clinician") then
                Hospital.mk (drop_assignment username <$> hospital_users)
                  (filter (fun n => ¬ (Note.author_id n = username
                                       ∧ Note.source n = "clinician"))
                          notes)
                  (Hospital.alerts hospital)
                  (Chats.mk (without_sender username <$> general)
                            (drop_thread username <$> direct))
              else
                Hospital.mk hospital_users notes (Hospital.alerts hospital)
                  (Chats.mk (without_sender username <$> general)
                            (strip_threads username <$> direct)) in
            (true, set_hospital hospital_id hospital s)
      end
  end.

Definition get_all_clinicians (s : service) (hospital_id : string)
    : list UserData.t :=
  filter (fun d => UserData.role d = "clinician"
                   ∧ UserData.status d = "approved")
         (user_values s hospital_id).

Definition get_assigned_clinicians_for_patient (s : service)
    (hospital_id patient_username : string) : list string :=
  let patient_key := user_key patient_username "patient" in
  let patient_data :=
    hospitals s !! hospital_id ≫= fun h => Hospital.users h !! patient_key in
  from_option UserData.assigned [] patient_data.

Definition assign_clinician_to_patient (s : service)
    (hospital_id patient_username clinician_username : string)
    : bool * service :=
  let patient_key := user_key patient_username "patient" in
  match hospitals s !! hospital_id with
  | None => (false, s)
  | Some hospital =>
      match Hospital.users hospital !! patient_key with
      | None => (false, s)
      | Some patient_data =>
          let assigned := UserData.assigned patient_data in
          let patient_data := UserData.set_assigned assigned patient_data in
          if bool_decide (clinician_username ∉ assigned) then
            let patient_data :=
              UserData.set_assigned (assigned ++ [clinician_username])
                                    patient_data in
            (true,
             set_hospital hospital_id
               (Hospital.set_users
                  (<[patient_key := patient_data]> (Hospital.users hospital))
                  hospital) s)
          else
            (false,
             set_hospital hospital_id
               (Hospital.set_users
                  (<[patient_key := patient_data]> (Hospital.users hospital))
                  hospital) s)
      end
  end.

Definition unassign_clinician_from_patient (s : service)
    (hospital_id patient_username clinician_username : string)
    : bool * service :=
  let patient_key := user_key patient_username "patient" in
  match hospitals s !! hospital_id with
  | None => (false, s)
  | Some hospital =>
      match Hospital.users hospital !! patient_key with
      | None => (false, s)
      | Some patient_data =>
          match UserData.assigned_clinicians patient_data with
          | None => (false, s)
          | Some assigned =>
              if bool_decide (clinician_username ∈ assigned) then
                let patient_data :=
                  UserData.set_assigned (Py.remove clinician_username assigned)
                                        patient_data in
                (true,
                 set_hospital hospital_id
                   (Hospital.set_users
                      (<[patient_key := patient_data]>
                         (Hospital.users hospital))
                      hospital) s)
              else (false, s)
          end
      end
  end.

Definition note_matches (search_term : string) (note : Note.t) : bool :=
  let notes_text := Py.lower (Note.notes note) in
  let diagnoses_text := Py.lower (Note.diagnoses note) in
  Py.str_in search_term notes_text || Py.str_in search_term diagnoses_text.

Definition search_notes (s : service)
    (hospital_id patient_id search_term : string) : list Note.t :=
  let all_notes := get_notes_for_patient s hospital_id patient_id in
  if negb (Py.truthy search_term) then all_notes
  else
    let search_term := Py.lower search_term in
    filter (fun note => note_matches search_term note = true) all_notes.

Definition get_pain_alerts (s : service) (hospital_id : string)
    : list Alert.t :=
  from_option Hospital.alerts [] (hospitals s !! hospital_id).

(** [self._data['hospitals'][hospital_id]] is indexed without a guard:
    for an unknown hospital the assignment raises [KeyError]. *)
Definition dismiss_alert (s : service) (hospital_id alert_id : string)
    : Py.result (bool * service) :=
  let alerts := get_pain_alerts s hospital_id in
  match hospitals s !! hospital_id with
  | None => Py.Raise (Py.KeyError hospital_id)
  | Some hospital =>
      let alerts := filter (fun a => Alert.alert_id a ≠ alert_id) alerts in
      Py.Ok (true,
             set_hospital hospital_id (Hospital.set_alerts alerts hospital) s)
  end.

End CareLogService.

(** ** [modules/chat.py]: [ChatService] *)

(** [hospitals.setdefault(hospital_id, {...})]: the hospital is created
    empty when it is missing and left as it is otherwise. *)
Definition _ensure_chat_store (s : service) (hospital_id : string)
    : service :=
  set_hospital hospital_id
    (default Hospital.empty (hospitals s !! hospital_id)) s.

(** [general.setdefault(patient_username, [])]; the thread is returned
    with the store that now has it. *)
Definition _ensure_general_thread (s : service)
    (hospital_id patient_username : string) : list Message.t * service :=
  let hospital := default Hospital.empty (hospitals s !! hospital_id) in
  let general := Chats.general (Hospital.chats hospital) in
  let thread := default [] (general !! patient_username) in
  (thread,
   set_hospital hospital_id
     (Hospital.set_general (<[patient_username := thread]> general) hospital)
     s).

Definition _ensure_direct_thread (s : service)
    (hospital_id patient_username clinician_username : string)
    : list Message.t * service :=
  let hospital := default Hospital.empty (hospitals s !! hospital_id) in
  let direct := Chats.direct (Hospital.chats hospital) in
  let patient_threads := default ∅ (direct !! patient_username) in
  let thread := default [] (patient_threads !! clinician_username) in
  (thread,
   set_hospital hospital_id
     (Hospital.set_direct
        (<[patient_username :=
             <[clinician_username := thread]> patient_threads]> direct)
        hospital)
     s).

(** [message_id] is the [uuid4] and [timestamp] the UTC clock reading the
    method draws. *)
Definition _build_message (sender_username sender_role text : string)
    (channel patient_username : string) (clinician_username : option string)
    (message_id timestamp : string) : Message.t :=
  Message.mk message_id timestamp sender_username sender_role text
             channel patient_username clinician_username.

(** [(message or "").strip()]. *)
Definition message_text (message : option string) : string :=
  Py.strip (default "" message).

Definition add_general_message (s : service)
    (hospital_id patient_username sender_username sender_role : string)
    (message : option string) (message_id timestamp : string)
    : option Message.t * service :=
  let text := message_text message in
  if negb (Py.truthy text) then (None, s)
  else
    let '(thread, s) :=
      _ensure_general_thread s hospital_id patient_username in
    let entry :=
      _build_message sender_username sender_role text "general"
                     patient_username None message_id timestamp in
    let hospital := default Hospital.empty (hospitals s !! hospital_id) in
    let general := Chats.general (Hospital.chats hospital) in
    (Some entry,
     set_hospital hospital_id
       (Hospital.set_general
          (<[patient_username := (thread ++ [entry])%list]> general) hospital) s).

Definition clear_general_messages (s : service)
    (hospital_id patient_username : string) : bool * service :=
  let s := _ensure_chat_store s hospital_id in
  let hospital := default Hospital.empty (hospitals s !! hospital_id) in
  let general := Chats.general (Hospital.chats hospital) in
  match general !! patient_username with
  | Some _ =>
      (true,
       set_hospital hospital_id
         (Hospital.set_general (<[patient_username := []]> general) hospital)
         s)
  | None => (false, s)
  end.

(** [thread[-limit:]] when a limit is given. *)
Definition tail_limit (limit : option Z) (thread : list Message.t)
    : list Message.t :=
  match limit with
  | Some limit => Py.slice_from (- limit) thread
  | None => thread
  end.

Definition get_general_messages (s : service)
    (hospital_id patient_username : string) (limit : option Z)
    : list Message.t * service :=
  let '(thread, s) :=
    _ensure_general_thread s hospital_id patient_username in
  let thread := Py.sort_by Message.timestamp thread in
  (tail_limit limit thread, s).

Definition add_direct_message (s : service)
    (hospital_id patient_username clinician_username : string)
    (sender_username sender_role : string) (message : option string)
    (message_id timestamp : string) : option Message.t * service :=
  let text := message_text message in
  if negb (Py.truthy text) then (None, s)
  else
    let assigned :=
      get_assigned_clinicians_for_patient s hospital_id patient_username in
    if bool_decide (assigned ≠ [] ∧ clinician_username ∉ assigned)
    then (None, s)
    else
      let '(thread, s) :=
        _ensure_direct_thread s hospital_id patient_username
                              clinician_username in
      let entry :=
        _build_message sender_username sender_role text "direct"
                       patient_username (Some clinician_username)
                       message_id timestamp in
      let hospital := default Hospital.empty (hospitals s !! hospital_id) in
      let direct := Chats.direct (Hospital.chats hospital) in
      let patient_threads := default ∅ (direct !! patient_username) in
      (Some entry,
       set_hospital hospital_id
         (Hospital.set_direct
            (<[patient_username :=
                 <[clinician_username := (thread ++ [entry])%list]> patient_threads]>
               direct)
            hospital) s).

Definition get_direct_messages (s : service)
    (hospital_id patient_username clinician_username : string)
    (limit : option Z) : list Message.t * service :=
  let '(thread, s) :=
    _ensure_direct_thread s hospital_id patient_username clinician_username in
  let thread := Py.sort_by Message.timestamp thread in
  (tail_limit limit thread, s).

Definition clear_direct_messages (s : service)
    (hospital_id patient_username clinician_username : string)
    : bool * service :=
  let hospital := default Hospital.empty (hospitals s !! hospital_id) in
  let direct := Chats.direct (Hospital.chats hospital) in
  let patient_threads := default ∅ (direct !! patient_username) in
  match patient_threads !! clinician_username with
  | Some _ =>
      (true,
       set_hospital hospital_id
         (Hospital.set_direct
            (<[patient_username :=
                 <[clinician_username := []]> patient_threads]> direct)
            hospital) s)
  | None =>
      (false,
       set_hospital hospital_id
         (Hospital.set_direct (<[patient_username := patient_threads]> direct)
                              hospital) s)
  end.

(** ** Runs of the service *)

(** One call of a method that can change the store or the session. The
    methods left out only read. [EnsureChatStore] stands for
    [list_general_patients] and [list_direct_threads_for_clinician], whose
    one effect on the store is the call of [_ensure_chat_store]. *)
Inductive op :=
| RegisterUser
    (username password role hospital_id full_name dob sex pronouns bio : string)
    (salt : string)
| Login (username password role hospital_id : string)
| Logout
| AddNote (note : Note.t) (hospital_id : string)
| GenerateAndStoreAiFeedback (note_id hospital_id : string)
    (generate_feedback : string -> Z -> Z -> Z -> option string)
| ApproveAiFeedback (note_id hospital_id edited_feedback_text : string)
| RejectAiFeedback (note_id hospital_id : string)
| DeleteNote (note_id hospital_id : string)
| ApproveUser (username role hospital_id : string)
| UpdateUserProfile (hospital_id username role : string)
    (details : Details.t) (salt : string)
| UpdateNote (hospital_id note_id : string)
    (updated_data : list Note.assignment)
| DeleteUser (hospital_id username role : string)
| AssignClinicianToPatient
    (hospital_id patient_username clinician_username : string)
| UnassignClinicianFromPatient
    (hospital_id patient_username clinician_username : string)
| DismissAlert (hospital_id alert_id : string)
| EnsureChatStore (hospital_id : string)
| AddGeneralMessage
    (hospital_id patient_username sender_username sender_role : string)
    (message : option string) (message_id timestamp : string)
| ClearGeneralMessages (hospital_id patient_username : string)
| GetGeneralMessages (hospital_id patient_username : string)
    (limit : option Z)
| AddDirectMessage
    (hospital_id patient_username clinician_username : string)
    (sender_username sender_role : string)
    (message : option string) (message_id timestamp : string)
| GetDirectMessages
    (hospital_id patient_username clinician_username : string)
    (limit : option Z)
| ClearDirectMessages
    (hospital_id patient_username clinician_username : string).

Section Runs.

Variable sha256_hexdigest : string -> string.

(** The service after one call; a call that raises leaves it as it was
    when the exception left the method. *)
Definition exec (s : service) (o : op) : service :=
  match o with
  | RegisterUser username password role hospital_id full_name dob sex
                 pronouns bio salt =>
      (register_user sha256_hexdigest s username password role hospital_id
                     full_name dob sex pronouns bio salt).2
  | Login username password role hospital_id =>
      (login sha256_hexdigest s username password role hospital_id).2
  | Logout => logout s
  | AddNote note hospital_id => add_note s note hospital_id
  | GenerateAndStoreAiFeedback note_id hospital_id generate_feedback =>
      (generate_and_store_ai_feedback s note_id hospital_id
                                      generate_feedback).2
  | ApproveAiFeedback note_id hospital_id edited_feedback_text =>
      (approve_ai_feedback s note_id hospital_id edited_feedback_text).2
  | RejectAiFeedback note_id hospital_id =>
      (reject_ai_feedback s note_id hospital_id).2
  | DeleteNote note_id hospital_id => (delete_note s note_id hospital_id).2
  | ApproveUser username role hospital_id =>
      (approve_user s username role hospital_id).2
  | UpdateUserProfile hospital_id username role details salt =>
      (update_user_profile sha256_hexdigest s hospital_id username role
                           details salt).2
  | UpdateNote hospital_id note_id updated_data =>
      (update_note s hospital_id note_id updated_data).2
  | DeleteUser hospital_id username role =>
      (delete_user s hospital_id username role).2
  | AssignClinicianToPatient hospital_id patient_username clinician_username =>
      (assign_clinician_to_patient s hospital_id patient_username
                                   clinician_username).2
  | UnassignClinicianFromPatient hospital_id patient_username
                                 clinician_username =>
      (unassign_clinician_from_patient s hospital_id patient_username
                                       clinician_username).2
  | DismissAlert hospital_id alert_id =>
      match dismiss_alert s hospital_id alert_id with
      | Py.Ok r => r.2
      | Py.Raise _ => s
      end
  | EnsureChatStore hospital_id => _ensure_chat_store s hospital_id
  | AddGeneralMessage hospital_id patient_username sender_username
                      sender_role message message_id timestamp =>
      (add_general_message s hospital_id patient_username sender_username
                           sender_role message message_id timestamp).2
  | ClearGeneralMessages hospital_id patient_username =>
      (clear_general_messages s hospital_id patient_username).2
  | GetGeneralMessages hospital_id patient_username limit =>
      (get_general_messages s hospital_id patient_username limit).2
  | AddDirectMessage hospital_id patient_username clinician_username
                     sender_username sender_role message message_id
                     timestamp =>
      (add_direct_message s hospital_id patient_username clinician_username
                          sender_username sender_role message message_id
                          timestamp).2
  | GetDirectMessages hospital_id patient_username clinician_username limit =>
      (get_direct_messages s hospital_id patient_username clinician_username
                           limit).2
  | ClearDirectMessages hospital_id patient_username clinician_username =>
      (clear_direct_messages s hospital_id patient_username
                             clinician_username).2
  end.

(** The service after a sequence of calls, first call first. *)
Definition run (s : service) (ops : list op) : service :=
  fold_left exec ops s.

(** The states a freshly started service on an empty store can reach. *)
Definition reachable (s : service) : Prop :=
  ∃ ops, run empty_service ops = s.

End Runs.

(** No user record of the hospital lists a clinician twice. *)
Definition users_nodup (users : gmap string UserData.t) : Prop :=
  ∀ key data, users !! key = Some data → NoDup (UserData.assigned data).

(** The same, for every hospital of the store. *)
Definition assigned_nodup (s : service) : Prop :=
  ∀ hospital_id hospital,
    hospitals s !! hospital_id = Some hospital →
    users_nodup (Hospital.users hospital).

(** ** A small hospital used in the examples *)

Definition example_patient_record (username : string)
    (assigned : list string) : UserData.t :=
  UserData.mk username "hash" "patient" (Some "salt") "approved"
              "Name" "1990-01-01" "Other" "they/them" "bio" (Some assigned).

Definition example_staff_record (username role : string) : UserData.t :=
  UserData.mk username "hash" role (Some "salt") "approved"
              "Name" "1990-01-01" "Other" "they/them" "bio" (Some []).

Definition example_user (username role : string) : User.t :=
  User.mk username username "hash" role "" "" "" "" "".

(** A diary entry of patient [p1], marked private. *)
Definition example_private_note : Note.t :=
  Note.mk "n1" "H1" "p1" "p1" "2024-01-01T10:00:00" 5 3 5
          "diary" "" "patient" true false None.

(** A note about [p1] by clinician [clin1], hidden from the patient. *)
Definition example_hidden_note : Note.t :=
  Note.mk "n2" "H1" "p1" "clin1" "2024-01-02T10:00:00" 5 3 5
          "observation" "dx" "clinician" false true None.

Definition example_hospital : Hospital.t :=
  Hospital.mk
    (<[user_key "p1" "patient" := example_patient_record "p1" ["clin1"]]>
     (<[user_key "p2" "patient" := example_patient_record "p2" []]>
      (<[user_key "clin1" "clinician" := example_staff_record "clin1" "clinician"]>
       (<[user_key "clin2" "clinician" := example_staff_record "clin2" "clinician"]>
        (<[user_key "admin1" "admin" := example_staff_record "admin1" "admin"]>
         ∅)))))
    [example_private_note; example_hidden_note]
    []
    Chats.empty.

(** The example hospital [H1] with [caller] logged in. *)
Definition example_service (caller : option User.t) : service :=
  mkService caller (<["H1" := example_hospital]> ∅).

(** The thread of a patient and a clinician as the store has it, empty
    when any of the keys is missing. *)
Definition direct_thread (s : service)
    (hospital_id patient_username clinician_username : string)
    : list Message.t :=
  default []
    (hospitals s !! hospital_id
     ≫= fun h => Chats.direct (Hospital.chats h) !! patient_username
     ≫= fun threads => threads !! clinician_username).

(** The general thread of a patient as the store has it, empty when a
    key is missing. *)
Definition general_thread (s : service)
    (hospital_id patient_username : string) : list Message.t :=
  default []
    (hospitals s !! hospital_id
     ≫= fun h => Chats.general (Hospital.chats h) !! patient_username).

(** The order of two messages by timestamp: [a] is not later than [b]. *)
Definition not_later (a b : Message.t) : Prop :=
  String.leb (Message.timestamp a) (Message.timestamp b) = true.

Definition example_message (message_id timestamp sender : string)
    : Message.t :=
  Message.mk message_id timestamp sender "clinician" "hello" "general"
             "p1" None.

(** The example hospital with two messages in the general thread of [p1]
    and the same two in the threads of [p1] with [clin1] and with
    [clin2], the later one stored first. *)
Definition example_chat_hospital : Hospital.t :=
  let thread :=
    [example_message "m2" "2024-01-05T09:00:00Z" "clin1";
     example_message "m1" "2024-01-05T08:00:00Z" "clin1"] in
  Hospital.set_chats
    (Chats.mk (<["p1" := thread]> ∅)
              (<["p1" := <["clin1" := thread]> (<["clin2" := thread]> ∅)]> ∅))
    example_hospital.

(** That hospital as [H1], with [caller] logged in. *)
Definition example_chat_service_as (caller : option User.t) : service :=
  mkService caller (<["H1" := example_chat_hospital]> ∅).

Definition example_chat_service : service := example_chat_service_as None.

(** A run from the empty store: an admin opens hospital [H1], patient
    [p1] registers, and clinician [clin1] is assigned to [p1] twice. *)
Definition example_run : list op :=
  [RegisterUser "admin1" "V4lid!Pass" "admin" "H1" "Admin" "1980-01-01"
                "Other" "they/them" "bio" "5a17";
   RegisterUser "p1" "V4lid!Pass" "patient" "H1" "Pat" "1990-01-01"
                "Other" "they/them" "bio" "0b2c";
   AssignClinicianToPatient "H1" "p1" "clin1";
   AssignClinicianToPatient "H1" "p1" "clin1"].

(** A stand-in for the hash in the examples. *)
Definition example_hash (x : string) : string := "sha256:" +:+ x.

Definition example_run_service : service :=
  run example_hash empty_service example_run.

Definition example_run_hospital : Hospital.t :=
  default Hospital.empty (hospitals example_run_service !! "H1").

Definition example_run_patient : UserData.t :=
  default (example_patient_record "" [])
          (Hospital.users example_run_hospital !! user_key "p1" "patient").



(** A user record is well formed under its key: the key is made of the
    record's own username and role, the status is one of the two the
    service writes and only an admin or a clinician is pending, the salt
    and the assignment list are present, and the stored hash is the hash
    of the stored salt followed by some password. *)
Definition record_ok (sha256_hexdigest : string -> string) (key : string)
    (d : UserData.t) : Prop :=
  key = user_key (UserData.username d) (UserData.role d)
  ∧ (UserData.status d = "pending" ∨ UserData.status d = "approved")
  ∧ (UserData.status d = "pending" →
     UserData.role d = "admin" ∨ UserData.role d = "clinician")
  ∧ is_Some (UserData.assigned_clinicians d)
  ∧ ∃ salt password,
      UserData.salt d = Some salt
      ∧ UserData.password_hash d = sha256_hexdigest (salt +:+ password).

Definition users_ok (sha256_hexdigest : string -> string)
    (users : gmap string UserData.t) : Prop :=
  ∀ key d, users !! key = Some d → record_ok sha256_hexdigest key d.

Definition records_ok (sha256_hexdigest : string -> string) (s : service)
    : Prop :=
  ∀ hospital_id hospital,
    hospitals s !! hospital_id = Some hospital →
    users_ok sha256_hexdigest (Hospital.users hospital).

(** * Properties *)

(** ** Access control of [get_notes_for_patient] *)

Lemma get_notes_not_clinician (s : service) (hospital_id patient_id : string) :
  (∀ u, current_user s = Some u → User.role u ≠ "clinician") →
  get_notes_for_patient s hospital_id patient_id
  = filter (fun n => Note.patient_id n = patient_id)
           (from_option Hospital.notes [] (hospitals s !! hospital_id)).
Proof.
  intros Hrole. unfold get_notes_for_patient.
  destruct (current_user s) as [u|]; [|done].
  case_bool_decide as Hc; [|done].
  by destruct (Hrole u eq_refl).
Qed.

Lemma get_notes_clinician (s : service) (hospital_id patient_id : string)
    (u : User.t) :
  current_user s = Some u →
  User.role u = "clinician" →
  get_notes_for_patient s hospital_id patient_id
  = if bool_decide
         (User.username u
          ∈ get_assigned_clinicians_for_patient s hospital_id patient_id)
    then filter (fun n => ¬ (Note.source n = "patient"
                             ∧ Note.is_private n = true))
           (filter (fun n => Note.patient_id n = patient_id)
              (from_option Hospital.notes [] (hospitals s !! hospital_id)))
    else [].
Proof.
  intros Hu Hrole. unfold get_notes_for_patient.
  rewrite Hu. by rewrite bool_decide_eq_true_2.
Qed.

(** C1 (as the code has it): [get_notes_for_patient] never reads
    [hidden_from_patient]. A note written by a clinician about the patient
    and marked hidden is returned to every caller that is not a clinician
    (a patient, an admin, no session), and to a clinician exactly when the
    clinician is assigned to the patient. *)
Theorem hidden_note_visibility (s : service) (hospital_id patient_id : string)
    (hospital : Hospital.t) (n : Note.t) :
  hospitals s !! hospital_id = Some hospital →
  n ∈ Hospital.notes hospital →
  Note.patient_id n = patient_id →
  Note.source n = "clinician" →
  Note.hidden_from_patient n = true →
  n ∈ get_notes_for_patient s hospital_id patient_id
  ↔ ∀ u, current_user s = Some u →
         User.role u = "clinician" →
         User.username u
         ∈ get_assigned_clinicians_for_patient s hospital_id patient_id.
Proof.
  intros Hh Hn Hp Hsrc _.
  destruct (current_user s) as [u|] eqn:Hu.
  - destruct (decide (User.role u = "clinician")) as [Hc|Hc].
    + rewrite (get_notes_clinician s hospital_id patient_id u Hu Hc).
      case_bool_decide as Ha.
      * split; [by intros _ u' [= <-] _|]. intros _.
        rewrite !list_elem_of_filter, Hh. simpl.
        split_and!; [|done..]. intros [Hsp _]. by rewrite Hsrc in Hsp.
      * split; [by intros ?%elem_of_nil|].
        intros Hall. exfalso. by apply Ha, (Hall u).
    + rewrite get_notes_not_clinician by (intros u' ?; by simplify_eq).
      rewrite list_elem_of_filter, Hh. simpl.
      split; [|done]. by intros _ u' [= <-] ?.
  - rewrite get_notes_not_clinician by (intros u' ?; by simplify_eq).
    rewrite list_elem_of_filter, Hh. simpl. split; [done|]. done.
Qed.

Lemma hidden_note_visibility_witness :
  let s := example_service (Some (example_user "p1" "patient")) in
  hospitals s !! "H1" = Some example_hospital
  ∧ example_hidden_note ∈ Hospital.notes example_hospital
  ∧ (example_hidden_note ∈ get_notes_for_patient s "H1" "p1"
     ↔ ∀ u, current_user s = Some u →
            User.role u = "clinician" →
            User.username u
            ∈ get_assigned_clinicians_for_patient s "H1" "p1").
Proof.
  assert (Hin : example_hidden_note ∈ Hospital.notes example_hospital)
    by (simpl; repeat constructor).
  split; [reflexivity|]. split; [exact Hin|].
  apply (hidden_note_visibility
           (example_service (Some (example_user "p1" "patient")))
           "H1" "p1" example_hospital example_hidden_note);
    [reflexivity | exact Hin | reflexivity | reflexivity | reflexivity].
Defined.

(** C1, as the specification words it, fails: patient [p1] is logged in and
    [get_notes_for_patient] hands over the note that clinician [clin1]
    marked hidden from the patient. *)
Lemma hidden_note_reaches_patient :
  let caller := example_user "p1" "patient" in
  get_notes_for_patient (example_service (Some caller)) "H1" "p1"
  = [example_private_note; example_hidden_note]
  ∧ Note.source example_hidden_note = "clinician"
  ∧ Note.hidden_from_patient example_hidden_note = true
  ∧ User.role caller = "patient".
Proof. by vm_compute. Qed.

(** What [search_notes] returns is part of what [get_notes_for_patient]
    returns. *)
Lemma search_notes_sublist (s : service)
    (hospital_id patient_id search_term : string) :
  search_notes s hospital_id patient_id search_term
  `sublist_of` get_notes_for_patient s hospital_id patient_id.
Proof.
  unfold search_notes. destruct (negb (Py.truthy search_term)); [done|].
  apply sublist_filter.
Qed.

(** C2 (as the code has it): a note the patient wrote and marked private
    is withheld from every clinician, assigned or not, and returned to
    every other caller: the authoring patient and the admins, but also any
    other patient and a caller without a session. [search_notes] returns
    it to nobody who does not get it from [get_notes_for_patient]. *)
Theorem private_note_visibility (s : service) (hospital_id patient_id : string)
    (hospital : Hospital.t) (n : Note.t) :
  hospitals s !! hospital_id = Some hospital →
  n ∈ Hospital.notes hospital →
  Note.patient_id n = patient_id →
  Note.source n = "patient" →
  Note.is_private n = true →
  (n ∈ get_notes_for_patient s hospital_id patient_id
   ↔ ∀ u, current_user s = Some u → User.role u ≠ "clinician")
  ∧ ∀ search_term,
      n ∈ search_notes s hospital_id patient_id search_term →
      n ∈ get_notes_for_patient s hospital_id patient_id.
Proof.
  intros Hh Hn Hp Hsrc Hpriv. split.
  - destruct (current_user s) as [u|] eqn:Hu.
    + destruct (decide (User.role u = "clinician")) as [Hc|Hc].
      * rewrite (get_notes_clinician s hospital_id patient_id u Hu Hc).
        split; [|by intros Hall; destruct (Hall u eq_refl)].
        case_bool_decide; [|by intros ?%elem_of_nil].
        rewrite list_elem_of_filter. by intros [Hno _]; destruct Hno.
      * rewrite get_notes_not_clinician by (intros u' ?; by simplify_eq).
        rewrite list_elem_of_filter, Hh. simpl.
        split; [|done]. by intros _ u' [= <-].
    + rewrite get_notes_not_clinician by (intros u' ?; by simplify_eq).
      rewrite list_elem_of_filter, Hh. simpl. split; done.
  - intros search_term. apply (sublist_subseteq _ _ (search_notes_sublist _ _ _ _)).
Qed.

Lemma private_note_visibility_witness :
  let s := example_service (Some (example_user "clin1" "clinician")) in
  hospitals s !! "H1" = Some example_hospital
  ∧ example_private_note ∈ Hospital.notes example_hospital
  ∧ (example_private_note ∈ get_notes_for_patient s "H1" "p1"
     ↔ ∀ u, current_user s = Some u → User.role u ≠ "clinician")
  ∧ ∀ search_term,
      example_private_note ∈ search_notes s "H1" "p1" search_term →
      example_private_note ∈ get_notes_for_patient s "H1" "p1".
Proof.
  assert (Hin : example_private_note ∈ Hospital.notes example_hospital)
    by (simpl; repeat constructor).
  split; [reflexivity|]. split; [exact Hin|].
  apply (private_note_visibility
           (example_service (Some (example_user "clin1" "clinician")))
           "H1" "p1" example_hospital example_private_note);
    [reflexivity | exact Hin | reflexivity | reflexivity | reflexivity].
Defined.

(** C2, as the specification words it, fails: [p2], a patient who did not write the
    note, is logged in and receives the private diary entry of [p1], also
    through [search_notes]. *)
Lemma private_note_reaches_other_patient :
  let caller := example_user "p2" "patient" in
  get_notes_for_patient (example_service (Some caller)) "H1" "p1"
  = [example_private_note; example_hidden_note]
  ∧ search_notes (example_service (Some caller)) "H1" "p1" "diary"
    = [example_private_note]
  ∧ Note.source example_private_note = "patient"
  ∧ Note.is_private example_private_note = true
  ∧ Note.author_id example_private_note = "p1"
  ∧ User.username caller = "p2"
  ∧ User.role caller = "patient".
Proof. by vm_compute. Qed.

(** C5: for one store, hospital and patient, an unassigned clinician gets
    the empty list, which is part of what an assigned clinician gets,
    which is part of what an admin gets. *)
Theorem notes_visibility_chain (hs : gmap string Hospital.t)
    (hospital_id patient_id : string)
    (admin assigned_clinician other_clinician : User.t) :
  let assigned :=
    get_assigned_clinicians_for_patient (mkService None hs)
                                        hospital_id patient_id in
  let view caller :=
    get_notes_for_patient (mkService (Some caller) hs)
                          hospital_id patient_id in
  User.role admin = "admin" →
  User.role assigned_clinician = "clinician" →
  User.username assigned_clinician ∈ assigned →
  User.role other_clinician = "clinician" →
  User.username other_clinician ∉ assigned →
  view other_clinician = []
  ∧ view other_clinician `sublist_of` view assigned_clinician
  ∧ view assigned_clinician `sublist_of` view admin.
Proof.
  intros assigned view Hadmin Hc1 Hin Hc2 Hout.
  assert (view other_clinician = []) as Hempty.
  { unfold view.
    rewrite (get_notes_clinician (mkService (Some other_clinician) hs)
               _ _ other_clinician eq_refl Hc2).
    rewrite bool_decide_eq_false_2; [done|exact Hout]. }
  split; [done|]. split; [rewrite Hempty; apply sublist_nil_l|].
  unfold view.
  rewrite (get_notes_clinician (mkService (Some assigned_clinician) hs)
             _ _ assigned_clinician eq_refl Hc1).
  rewrite bool_decide_eq_true_2 by exact Hin.
  rewrite get_notes_not_clinician.
  - apply sublist_filter.
  - intros u [= <-]. by rewrite Hadmin.
Qed.

Lemma notes_visibility_chain_witness :
  let hs := hospitals (example_service None) in
  let view caller :=
    get_notes_for_patient (mkService (Some caller) hs) "H1" "p1" in
  view (example_user "clin2" "clinician") = []
  ∧ view (example_user "clin2" "clinician")
    `sublist_of` view (example_user "clin1" "clinician")
  ∧ view (example_user "clin1" "clinician")
    `sublist_of` view (example_user "admin1" "admin").
Proof.
  apply (notes_visibility_chain (hospitals (example_service None))
           "H1" "p1" (example_user "admin1" "admin")
           (example_user "clin1" "clinician")
           (example_user "clin2" "clinician")).
  - reflexivity.
  - reflexivity.
  - vm_compute. constructor.
  - reflexivity.
  - vm_compute. intros H. inversion H as [|? ? ? H']; inversion H'.
Defined.

(** ** Unknown hospitals *)

(** The other methods of the record service guard the lookup of the
    hospital: on a hospital the store does not have they return false or
    empty and leave the service as it is. *)
Lemma guarded_methods_unknown_hospital (s : service) (hospital_id : string) :
  hospitals s !! hospital_id = None →
  (∀ note_id, delete_note s note_id hospital_id = (false, s))
  ∧ (∀ note, add_note s note hospital_id = s)
  ∧ (∀ note_id text,
       approve_ai_feedback s note_id hospital_id text = (false, s))
  ∧ (∀ note_id, reject_ai_feedback s note_id hospital_id = (false, s))
  ∧ (∀ note_id data, update_note s hospital_id note_id data = (false, s))
  ∧ (∀ username role, approve_user s username role hospital_id = (false, s))
  ∧ (∀ username role, delete_user s hospital_id username role = (false, s))
  ∧ (∀ patient clinician,
       assign_clinician_to_patient s hospital_id patient clinician
       = (false, s))
  ∧ (∀ patient clinician,
       unassign_clinician_from_patient s hospital_id patient clinician
       = (false, s))
  ∧ (∀ patient_id, get_notes_for_patient s hospital_id patient_id = [])
  ∧ get_pain_alerts s hospital_id = []
  ∧ get_all_users s hospital_id = ∅.
Proof.
  intros Hnone.
  unfold delete_note, add_note, approve_ai_feedback, reject_ai_feedback,
    update_note, approve_user, delete_user, assign_clinician_to_patient,
    unassign_clinician_from_patient, get_pain_alerts, get_all_users.
  rewrite !Hnone. split_and!; try done.
  intros patient_id. unfold get_notes_for_patient. rewrite Hnone. simpl.
  destruct (current_user s); [|done].
  by repeat case_bool_decide.
Qed.

(** C3: [dismiss_alert] on a hospital the store does not have. The method
    indexes [self._data['hospitals'][hospital_id]] and the [KeyError]
    reaches the caller, where the specification asks for a false result
    and no exception. *)
Theorem dismiss_alert_unknown_hospital_raises :
  dismiss_alert empty_service "missing" "a1"
  = Py.Raise (Py.KeyError "missing").
Proof. reflexivity. Qed.

(** The same for every store and every hospital it lacks. *)
Lemma dismiss_alert_raises (s : service) (hospital_id alert_id : string) :
  hospitals s !! hospital_id = None →
  dismiss_alert s hospital_id alert_id = Py.Raise (Py.KeyError hospital_id).
Proof. intros Hnone. unfold dismiss_alert. by rewrite Hnone. Qed.

(** ** Pain alerts *)

(** C4: in an existing hospital [add_note] appends the note; when the
    note comes from the patient with pain 10 it appends one alert that
    carries the note's id, patient and timestamp; a note with pain below
    10 and a note of a clinician leave the alerts as they were. *)
Theorem add_note_alert (s : service) (hospital_id : string)
    (hospital : Hospital.t) (note : Note.t) :
  hospitals s !! hospital_id = Some hospital →
  ∃ hospital',
    hospitals (add_note s note hospital_id) !! hospital_id = Some hospital'
    ∧ Hospital.notes hospital' = (Hospital.notes hospital ++ [note])%list
    ∧ (Note.pain note = 10 → Note.source note = "patient" →
       Hospital.alerts hospital'
       = (Hospital.alerts hospital
          ++ [Alert.mk (Note.note_id note) (Note.patient_id note)
                       (Note.timestamp note) "new"])%list)
    ∧ (Note.pain note < 10 ∨ Note.source note = "clinician" →
       Hospital.alerts hospital' = Hospital.alerts hospital).
Proof.
  intros Hh. unfold add_note. rewrite Hh.
  eexists. split; [apply lookup_insert_eq|].
  destruct (decide (Note.pain note = 10)) as [Hp|Hp];
    destruct (decide (Note.source note = "patient")) as [Hs|Hs];
    rewrite ?(bool_decide_eq_true_2 _ Hp), ?(bool_decide_eq_false_2 _ Hp),
      ?(bool_decide_eq_true_2 _ Hs), ?(bool_decide_eq_false_2 _ Hs); simpl;
    (split; [done|]); split; try done.
  - intros [Hlt|Hc]; [lia|]. by rewrite Hs in Hc.
Qed.

Lemma add_note_alert_witness :
  let s := example_service None in
  let note :=
    Note.mk "n3" "H1" "p1" "p1" "2024-01-03T09:00:00" 5 10 4
            "Very high pain" "" "patient" false false None in
  hospitals s !! "H1" = Some example_hospital
  ∧ ∃ hospital',
      hospitals (add_note s note "H1") !! "H1" = Some hospital'
      ∧ Hospital.notes hospital'
        = (Hospital.notes example_hospital ++ [note])%list
      ∧ (Note.pain note = 10 → Note.source note = "patient" →
         Hospital.alerts hospital'
         = (Hospital.alerts example_hospital
            ++ [Alert.mk (Note.note_id note) (Note.patient_id note)
                         (Note.timestamp note) "new"])%list)
      ∧ (Note.pain note < 10 ∨ Note.source note = "clinician" →
         Hospital.alerts hospital' = Hospital.alerts example_hospital).
Proof.
  split; [reflexivity|].
  apply (add_note_alert (example_service None) "H1" example_hospital).
  reflexivity.
Defined.

(** ** Direct messages *)

Lemma rstrip_empty (s : string) :
  Py.rstrip s = "" ↔ Py.all Py.isspace s = true.
Proof.
  induction s as [|c s IH]; simpl; [done|].
  destruct (Py.rstrip s) eqn:Hr.
  - destruct (Py.isspace c); simpl; [|done].
    split; intros _; [by apply IH|done].
  - split; [done|]. intros [_ Hall]%andb_true_iff. by apply IH in Hall.
Qed.

Lemma all_isspace_lstrip (s : string) :
  Py.all Py.isspace (Py.lstrip s) = Py.all Py.isspace s.
Proof.
  induction s as [|c s IH]; simpl; [done|].
  destruct (Py.isspace c) eqn:Hc; simpl; [done|]. by rewrite Hc.
Qed.

(** [s.strip()] is empty exactly for a string of whitespace. *)
Lemma strip_truthy (s : string) :
  Py.truthy (Py.strip s) = negb (Py.all Py.isspace s).
Proof.
  unfold Py.strip. rewrite <- all_isspace_lstrip.
  destruct (Py.all Py.isspace (Py.lstrip s)) eqn:Hall.
  - apply rstrip_empty in Hall. by rewrite Hall.
  - destruct (Py.rstrip (Py.lstrip s)) eqn:Hr; [|done].
    apply rstrip_empty in Hr. congruence.
Qed.

(** C6: [add_direct_message] returns [None] and the service it was given
    when the text is empty or whitespace, and when the patient has
    assigned clinicians and the named one is not among them. With no
    assigned clinician and a text that is not blank the message is built
    and appended to the thread of the two. *)
Theorem add_direct_message_guards (s : service)
    (hospital_id patient_username clinician_username : string)
    (sender_username sender_role : string) (message : option string)
    (message_id timestamp : string) :
  let assigned :=
    get_assigned_clinicians_for_patient s hospital_id patient_username in
  let call :=
    add_direct_message s hospital_id patient_username clinician_username
                       sender_username sender_role message message_id
                       timestamp in
  (Py.all Py.isspace (default "" message) = true → call = (None, s))
  ∧ (assigned ≠ [] → clinician_username ∉ assigned → call = (None, s))
  ∧ (Py.all Py.isspace (default "" message) = false →
     assigned = [] →
     ∃ entry s',
       call = (Some entry, s')
       ∧ Message.text entry = Py.strip (default "" message)
       ∧ Message.clinician_username entry = Some clinician_username
       ∧ direct_thread s' hospital_id patient_username clinician_username
         = (direct_thread s hospital_id patient_username clinician_username
            ++ [entry])%list).
Proof.
  intros assigned call. unfold call, add_direct_message, message_text.
  rewrite strip_truthy, negb_involutive. split_and!.
  - by intros ->.
  - intros Hne Hnot. destruct (Py.all _ _); [done|].
    fold assigned. by rewrite bool_decide_eq_true_2.
  - intros -> Hnil. fold assigned. rewrite Hnil.
    rewrite bool_decide_eq_false_2 by (by intros [? _]).
    simpl. eexists _, _. split; [reflexivity|]. split; [done|].
    split; [done|].
    unfold direct_thread, _ensure_direct_thread. simpl.
    rewrite !lookup_insert_eq. simpl.
    rewrite !lookup_insert_eq. simpl.
    rewrite !lookup_insert_eq. simpl.
    f_equal.
    destruct (hospitals s !! hospital_id) as [h|]; simpl; [|done].
    destruct (Chats.direct (Hospital.chats h) !! patient_username);
      simpl; [|done].
    done.
Qed.

Lemma add_direct_message_guards_witness :
  let s := example_service (Some (example_user "clin2" "clinician")) in
  add_direct_message s "H1" "p1" "clin1" "clin1" "clinician"
                     (Some "   ") "m1" "2024-01-05T08:00:00Z" = (None, s)
  ∧ add_direct_message s "H1" "p1" "clin2" "clin2" "clinician"
                       (Some "Hi") "m1" "2024-01-05T08:00:00Z" = (None, s)
  ∧ ∃ entry s',
      add_direct_message s "H1" "p2" "clin2" "clin2" "clinician"
                         (Some " Hi ") "m1" "2024-01-05T08:00:00Z"
      = (Some entry, s')
      ∧ Message.text entry = "Hi"
      ∧ direct_thread s' "H1" "p2" "clin2" = [entry].
Proof.
  set (s := example_service (Some (example_user "clin2" "clinician"))).
  split; [|split].
  - destruct (add_direct_message_guards s "H1" "p1" "clin1" "clin1"
                "clinician" (Some "   ") "m1" "2024-01-05T08:00:00Z")
      as (Hblank & _ & _).
    apply Hblank. reflexivity.
  - destruct (add_direct_message_guards s "H1" "p1" "clin2" "clin2"
                "clinician" (Some "Hi") "m1" "2024-01-05T08:00:00Z")
      as (_ & Hother & _).
    apply Hother.
    + vm_compute. discriminate.
    + vm_compute. intros H. inversion H as [|? ? ? H']; inversion H'.
  - destruct (add_direct_message_guards s "H1" "p2" "clin2" "clin2"
                "clinician" (Some " Hi ") "m1" "2024-01-05T08:00:00Z")
      as (_ & _ & Hsend).
    destruct (Hsend eq_refl eq_refl) as (entry & s' & Hcall & Htext & _ & Hth).
    exists entry, s'. split; [exact Hcall|]. split; [exact Htext|exact Hth].
Defined.

(** ** Reading a thread *)

Section SortBy.
Context {A : Type} (key : A -> string).

Let le (a b : A) : Prop := String.leb (key a) (key b) = true.

Lemma insert_by_perm (x : A) (l : list A) :
  Py.insert_by key x l ≡ₚ x :: l.
Proof.
  induction l as [|y l IH]; simpl; [done|].
  destruct (String.leb (key x) (key y)); [done|].
  rewrite IH. apply Permutation_swap.
Qed.

Lemma sort_by_perm (l : list A) : Py.sort_by key l ≡ₚ l.
Proof.
  induction l as [|x l IH]; simpl; [done|].
  by rewrite insert_by_perm, IH.
Qed.

Lemma insert_by_hd (x y : A) (l : list A) :
  le y x → HdRel le y l → HdRel le y (Py.insert_by key x l).
Proof.
  intros Hyx Hhd. destruct l as [|z l]; simpl; [by constructor|].
  destruct (String.leb (key x) (key z)); constructor; [done|].
  by apply HdRel_inv in Hhd.
Qed.

Lemma insert_by_sorted (x : A) (l : list A) :
  Sorted le l → Sorted le (Py.insert_by key x l).
Proof.
  induction l as [|y l IH]; simpl; intros Hs.
  - by repeat constructor.
  - apply Sorted_inv in Hs as [Hs Hhd].
    destruct (String.leb (key x) (key y)) eqn:Hxy.
    + constructor; [by constructor|by constructor].
    + constructor; [by apply IH|].
      apply insert_by_hd; [|done].
      destruct (String.leb_total (key x) (key y)); [congruence|done].
Qed.

Lemma sort_by_sorted (l : list A) : Sorted le (Py.sort_by key l).
Proof.
  induction l as [|x l IH]; simpl; [constructor|].
  by apply insert_by_sorted.
Qed.

Lemma sorted_drop (n : nat) (l : list A) : Sorted le l → Sorted le (drop n l).
Proof.
  revert l. induction n as [|n IH]; intros [|x l] Hs; simpl; try done.
  apply IH. by apply Sorted_inv in Hs as [? _].
Qed.

End SortBy.

(** [l[-n:]] for a positive [n] keeps the last [n] elements. *)
Lemma slice_from_last {A} (n : Z) (l : list A) :
  0 < n →
  Py.slice_from (- n) l = drop (length l - Z.to_nat n) l
  ∧ (Z.of_nat (length (Py.slice_from (- n) l)) <= n).
Proof.
  intros Hn. unfold Py.slice_from.
  destruct (Z.ltb_spec (- n) 0) as [_|?]; [|lia].
  replace (Z.to_nat (Z.max 0 (Z.of_nat (length l) + - n)))
    with (length l - Z.to_nat n)%nat by lia.
  split; [done|]. rewrite length_drop. lia.
Qed.

Lemma slice_from_sublist {A} (start : Z) (l : list A) :
  Py.slice_from start l `sublist_of` l.
Proof. apply sublist_drop. Qed.

(** What [get_general_messages] does right: the result is in ascending
    order of timestamp, without a limit it holds the messages of the
    thread, and with a limit of at least one it is the end of the sorted
    thread, of at most that length. *)
Lemma get_general_messages_sorted (s : service)
    (hospital_id patient_username : string) (limit : option Z) :
  let result :=
    (get_general_messages s hospital_id patient_username limit).1 in
  let sorted :=
    Py.sort_by Message.timestamp
               (general_thread s hospital_id patient_username) in
  Sorted not_later result
  ∧ (limit = None → result ≡ₚ general_thread s hospital_id patient_username)
  ∧ ∀ n, limit = Some n → 0 < n →
         result = drop (length sorted - Z.to_nat n) sorted
         ∧ Z.of_nat (length result) <= n.
Proof.
  unfold get_general_messages, _ensure_general_thread, general_thread. simpl.
  set (thread := default [] _).
  assert (default [] (hospitals s !! hospital_id ≫= λ h,
            Chats.general (Hospital.chats h) !! patient_username) = thread)
    as ->.
  { unfold thread. by destruct (hospitals s !! hospital_id). }
  split_and!.
  - destruct limit as [n|]; simpl.
    + apply sorted_drop, sort_by_sorted.
    + apply sort_by_sorted.
  - intros ->. apply sort_by_perm.
  - intros n -> Hn. simpl. by apply slice_from_last.
Qed.

(** The same for [get_direct_messages]. *)
Lemma get_direct_messages_sorted (s : service)
    (hospital_id patient_username clinician_username : string)
    (limit : option Z) :
  let result :=
    (get_direct_messages s hospital_id patient_username clinician_username
                         limit).1 in
  let sorted :=
    Py.sort_by Message.timestamp
      (direct_thread s hospital_id patient_username clinician_username) in
  Sorted not_later result
  ∧ (limit = None →
     result
     ≡ₚ direct_thread s hospital_id patient_username clinician_username)
  ∧ ∀ n, limit = Some n → 0 < n →
         result = drop (length sorted - Z.to_nat n) sorted
         ∧ Z.of_nat (length result) <= n.
Proof.
  unfold get_direct_messages, _ensure_direct_thread, direct_thread. simpl.
  set (thread := default [] (default ∅ _ !! _)).
  assert (default [] (hospitals s !! hospital_id ≫= λ h,
            Chats.direct (Hospital.chats h) !! patient_username
            ≫= λ threads, threads !! clinician_username) = thread) as ->.
  { unfold thread. destruct (hospitals s !! hospital_id) as [h|]; simpl;
      [|done].
    by destruct (Chats.direct (Hospital.chats h) !! patient_username). }
  split_and!.
  - destruct limit as [n|]; simpl.
    + apply sorted_drop, sort_by_sorted.
    + apply sort_by_sorted.
  - intros ->. apply sort_by_perm.
  - intros n -> Hn. simpl. by apply slice_from_last.
Qed.

(** A limit of 0 is no limit: [thread[-0:]] is the whole thread. *)
Lemma tail_limit_zero (thread : list Message.t) :
  tail_limit (Some 0) thread = thread.
Proof.
  unfold tail_limit, Py.slice_from.
  change (- 0 <? 0) with false. cbv beta iota zeta.
  assert (Z.to_nat (Z.min (- 0) (Z.of_nat (length thread))) = 0%nat) as ->
    by lia.
  done.
Qed.

(** C8: a limit of 0. [thread[-0:]] is [thread[0:]], so both readers
    return the two messages of the thread, in order of timestamp, where
    the specification allows at most 0 of them; a limit of 1 and no limit
    behave as specified. *)
Theorem tail_limit_zero_returns_thread :
  let m1 := example_message "m1" "2024-01-05T08:00:00Z" "clin1" in
  let m2 := example_message "m2" "2024-01-05T09:00:00Z" "clin1" in
  (get_general_messages example_chat_service "H1" "p1" (Some 0)).1 = [m1; m2]
  ∧ (get_direct_messages example_chat_service "H1" "p1" "clin1" (Some 0)).1
    = [m1; m2]
  ∧ (get_general_messages example_chat_service "H1" "p1" (Some 1)).1 = [m2]
  ∧ (get_general_messages example_chat_service "H1" "p1" None).1 = [m1; m2].
Proof. by vm_compute. Qed.

(** ** The assignment lists hold no clinician twice *)

Lemma remove_sublist (x : string) (l : list string) :
  Py.remove x l `sublist_of` l.
Proof.
  induction l as [|y l IH]; simpl; [done|].
  case_decide; [by apply sublist_cons|by apply sublist_skip].
Qed.

Lemma remove_nodup (x : string) (l : list string) :
  NoDup l → NoDup (Py.remove x l).
Proof. intros Hl. eapply sublist_NoDup; [done|apply remove_sublist]. Qed.

Lemma filter_all_id {A} (P : A → Prop) `{!∀ x, Decision (P x)} (l : list A) :
  (∀ x, x ∈ l → P x) → filter P l = l.
Proof.
  induction l as [|y l IH]; [done|]. intros Hall.
  rewrite filter_cons, decide_True by (apply Hall; left).
  f_equal. apply IH. intros x Hx. apply Hall. by right.
Qed.

(** On a list without duplicates [l.remove(x)] leaves no [x] and keeps
    the rest in order. *)
Lemma remove_nodup_filter (x : string) (l : list string) :
  NoDup l → Py.remove x l = filter (fun y => y ≠ x) l.
Proof.
  induction l as [|y l IH]; simpl; [done|]. intros [Hy Hl]%NoDup_cons.
  rewrite filter_cons. case_decide as Hyx.
  - subst y. rewrite decide_False by (by intros ?).
    symmetry. apply filter_all_id. by intros z Hz ->.
  - rewrite decide_True by done. by rewrite IH.
Qed.

Lemma users_nodup_empty : users_nodup ∅.
Proof. intros key data. by rewrite lookup_empty. Qed.

Lemma users_nodup_insert (users : gmap string UserData.t) (key : string)
    (data : UserData.t) :
  users_nodup users → NoDup (UserData.assigned data) →
  users_nodup (<[key := data]> users).
Proof.
  intros Hus Hd key' data'. rewrite lookup_insert.
  case_decide; [by intros [= <-]|apply Hus].
Qed.

Lemma users_nodup_delete (users : gmap string UserData.t) (key : string) :
  users_nodup users → users_nodup (delete key users).
Proof.
  intros Hus key' data'. rewrite lookup_delete.
  case_decide; [done|apply Hus].
Qed.

Lemma drop_assignment_nodup (username : string) (data : UserData.t) :
  NoDup (UserData.assigned data) →
  NoDup (UserData.assigned (drop_assignment username data)).
Proof.
  intros Hd. unfold drop_assignment.
  repeat case_bool_decide; simpl; try done. by apply remove_nodup.
Qed.

Lemma users_nodup_drop_assignment (users : gmap string UserData.t)
    (username : string) :
  users_nodup users → users_nodup (drop_assignment username <$> users).
Proof.
  intros Hus key data. rewrite lookup_fmap.
  destruct (users !! key) as [d|] eqn:Hd; simpl; [|done].
  intros [= <-]. apply drop_assignment_nodup. by eapply Hus.
Qed.

Lemma assigned_nodup_empty_service : assigned_nodup empty_service.
Proof. intros h hospital. simpl. by rewrite lookup_empty. Qed.

Lemma assigned_nodup_set_hospital (s : service) (hospital_id : string)
    (hospital : Hospital.t) :
  assigned_nodup s → users_nodup (Hospital.users hospital) →
  assigned_nodup (set_hospital hospital_id hospital s).
Proof.
  intros Hs Hh h' hospital'. simpl. rewrite lookup_insert.
  case_decide; [by intros [= <-]|apply Hs].
Qed.

Lemma assigned_nodup_set_current_user (s : service) (u : option User.t) :
  assigned_nodup s → assigned_nodup (set_current_user u s).
Proof. done. Qed.

Lemma assigned_nodup_lookup (s : service) (hospital_id : string) :
  assigned_nodup s →
  users_nodup
    (Hospital.users (default Hospital.empty (hospitals s !! hospital_id))).
Proof.
  intros Hs. destruct (hospitals s !! hospital_id) as [h|] eqn:Hh; simpl.
  - by eapply Hs.
  - apply users_nodup_empty.
Qed.

Ltac nodup_step :=
  repeat first
    [ done
    | apply assigned_nodup_set_hospital
    | apply users_nodup_insert
    | apply users_nodup_delete
    | apply users_nodup_drop_assignment
    | apply assigned_nodup_lookup
    | apply remove_nodup
    | apply NoDup_nil_2
    | match goal with
      | H : assigned_nodup ?s, E : hospitals ?s !! _ = Some ?h
        |- users_nodup (Hospital.users ?h) => exact (H _ _ E)
      | H : assigned_nodup ?s, E : hospitals ?s !! _ = Some ?h,
        E' : Hospital.users ?h !! _ = Some ?d
        |- NoDup _ => exact (H _ _ E _ _ E')
      | |- context [match ?x with _ => _ end] => destruct x eqn:?
      end
    | progress simpl ].

Section Preservation.

Variable sha256_hexdigest : string -> string.

(** [register_user] gives the new record the empty list. *)
Lemma register_user_assigned_empty (s : service)
    (username password role hospital_id full_name dob sex pronouns bio : string)
    (salt : string) (s' : service) :
  register_user sha256_hexdigest s username password role hospital_id
                full_name dob sex pronouns bio salt
  = (Bool true, s')
  ∨ register_user sha256_hexdigest s username password role hospital_id
                  full_name dob sex pronouns bio salt
    = (Str "pending", s') →
  ∃ hospital data,
    hospitals s' !! hospital_id = Some hospital
    ∧ Hospital.users hospital !! user_key username role = Some data
    ∧ UserData.assigned_clinicians data = Some [].
Proof.
  unfold register_user.
  destruct (negb (_is_strong_password password)); [by intros [|]|].
  destruct (_ && _); [by intros [|]|].
  destruct (Hospital.users _ !! _); [by intros [|]|].
  intros Hr.
  assert (∀ (b : bool) (v1 v2 : value) (t : service),
            (if b then (v1, t) else (v2, t)) = (Bool true, s')
            ∨ (if b then (v1, t) else (v2, t)) = (Str "pending", s') →
            t = s') as Hpick
    by (intros [] ???; intros [|]; congruence).
  apply Hpick in Hr as <-. simpl.
  eexists _, _. rewrite lookup_insert_eq. split; [done|]. simpl.
  by rewrite lookup_insert_eq.
Qed.

Lemma register_user_nodup (s : service)
    (username password role hospital_id full_name dob sex pronouns bio : string)
    (salt : string) :
  assigned_nodup s →
  assigned_nodup
    (register_user sha256_hexdigest s username password role hospital_id
                   full_name dob sex pronouns bio salt).2.
Proof. intros Hs. unfold register_user. nodup_step. Qed.

Lemma login_nodup (s : service) (username password role hospital_id : string) :
  assigned_nodup s →
  assigned_nodup
    (login sha256_hexdigest s username password role hospital_id).2.
Proof. intros Hs. unfold login. nodup_step. Qed.

Lemma update_user_profile_nodup (s : service)
    (hospital_id username role : string) (details : Details.t)
    (salt : string) :
  assigned_nodup s →
  assigned_nodup
    (update_user_profile sha256_hexdigest s hospital_id username role
                         details salt).2.
Proof. intros Hs. unfold update_user_profile. nodup_step. Qed.


Lemma update_first_nodup (s : service) (hospital_id : string)
    (hospital : Hospital.t) (notes : list Note.t) :
  assigned_nodup s → hospitals s !! hospital_id = Some hospital →
  assigned_nodup
    (set_hospital hospital_id (Hospital.set_notes notes hospital) s).
Proof. intros Hs Hh. nodup_step. Qed.

Lemma assign_clinician_nodup (s : service)
    (hospital_id patient_username clinician_username : string) :
  assigned_nodup s →
  assigned_nodup
    (assign_clinician_to_patient s hospital_id patient_username
                                 clinician_username).2.
Proof.
  intros Hs. unfold assign_clinician_to_patient.
  destruct (hospitals s !! hospital_id) as [h|] eqn:Hh; [|done].
  destruct (Hospital.users h !! _) as [d|] eqn:Hd; [|done].
  pose proof (Hs _ _ Hh _ _ Hd) as Hnd.
  case_bool_decide as Hin; simpl; nodup_step.
  apply NoDup_app. split_and!; [done| |apply NoDup_singleton].
  intros x Hx ->%list_elem_of_singleton. done.
Qed.

Lemma unassign_clinician_nodup (s : service)
    (hospital_id patient_username clinician_username : string) :
  assigned_nodup s →
  assigned_nodup
    (unassign_clinician_from_patient s hospital_id patient_username
                                     clinician_username).2.
Proof.
  intros Hs. unfold unassign_clinician_from_patient.
  destruct (hospitals s !! hospital_id) as [h|] eqn:Hh; [|done].
  destruct (Hospital.users h !! _) as [d|] eqn:Hd; [|done].
  pose proof (Hs _ _ Hh _ _ Hd) as Hnd. unfold UserData.assigned in Hnd.
  destruct (UserData.assigned_clinicians d) as [l|]; [|done].
  case_bool_decide; simpl; nodup_step.
Qed.

Lemma delete_user_nodup (s : service) (hospital_id username role : string) :
  assigned_nodup s →
  assigned_nodup (delete_user s hospital_id username role).2.
Proof. intros Hs. unfold delete_user. nodup_step. Qed.

Lemma approve_user_nodup (s : service) (username role hospital_id : string) :
  assigned_nodup s →
  assigned_nodup (approve_user s username role hospital_id).2.
Proof. intros Hs. unfold approve_user. nodup_step. Qed.

(** One call keeps the invariant. *)
Lemma exec_nodup (s : service) (o : op) :
  assigned_nodup s → assigned_nodup (exec sha256_hexdigest s o).
Proof.
  intros Hs. destruct o; simpl.
  - by apply register_user_nodup.
  - by apply login_nodup.
  - done.
  - unfold add_note. nodup_step.
  - unfold generate_and_store_ai_feedback. nodup_step.
  - unfold approve_ai_feedback. nodup_step.
  - unfold reject_ai_feedback. nodup_step.
  - unfold delete_note. nodup_step.
  - by apply approve_user_nodup.
  - by apply update_user_profile_nodup.
  - unfold update_note. nodup_step.
  - by apply delete_user_nodup.
  - by apply assign_clinician_nodup.
  - by apply unassign_clinician_nodup.
  - unfold dismiss_alert.
    destruct (hospitals s !! hospital_id) eqn:?; simpl; nodup_step.
  - unfold _ensure_chat_store. nodup_step.
  - unfold add_general_message, _ensure_general_thread. nodup_step.
  - unfold clear_general_messages, _ensure_chat_store. nodup_step.
  - unfold get_general_messages, _ensure_general_thread. nodup_step.
  - unfold add_direct_message, _ensure_direct_thread. nodup_step.
  - unfold get_direct_messages, _ensure_direct_thread. nodup_step.
  - unfold clear_direct_messages. nodup_step.
Qed.

Lemma run_nodup (ops : list op) (s : service) :
  assigned_nodup s → assigned_nodup (run sha256_hexdigest s ops).
Proof.
  revert s. induction ops as [|o ops IH]; intros s Hs; simpl; [done|].
  by apply IH, exec_nodup.
Qed.

Lemma reachable_nodup (s : service) :
  reachable sha256_hexdigest s → assigned_nodup s.
Proof.
  intros [ops <-].
  apply run_nodup, assigned_nodup_empty_service.
Qed.

(** [assign_clinician_to_patient] appends the clinician when the list
    does not have it and leaves the list alone when it does. *)
Lemma assign_clinician_appends (s : service)
    (hospital_id patient_username clinician_username : string)
    (hospital : Hospital.t) (data : UserData.t) :
  hospitals s !! hospital_id = Some hospital →
  Hospital.users hospital !! user_key patient_username "patient"
  = Some data →
  let r :=
    assign_clinician_to_patient s hospital_id patient_username
                                clinician_username in
  r.1 = bool_decide (clinician_username ∉ UserData.assigned data)
  ∧ get_assigned_clinicians_for_patient r.2 hospital_id patient_username
    = if bool_decide (clinician_username ∉ UserData.assigned data)
      then (UserData.assigned data ++ [clinician_username])%list
      else UserData.assigned data.
Proof.
  intros Hh Hd. unfold assign_clinician_to_patient. rewrite Hh, Hd.
  unfold get_assigned_clinicians_for_patient.
  case_bool_decide; simpl; rewrite lookup_insert_eq; simpl;
    by rewrite lookup_insert_eq.
Qed.

(** C9: in every state the service reaches from the empty store, no user
    record, so no patient record, lists a clinician twice in
    [assigned_clinicians]; the record a successful [register_user] stores
    has the empty list, and [assign_clinician_to_patient] appends a
    clinician only when the list does not have it. *)
Theorem reachable_assigned_nodup (s : service) :
  reachable sha256_hexdigest s →
  (∀ hospital_id key hospital data,
     hospitals s !! hospital_id = Some hospital →
     Hospital.users hospital !! key = Some data →
     NoDup (UserData.assigned data))
  ∧ (∀ username password role hospital_id full_name dob sex pronouns bio
       salt s',
       register_user sha256_hexdigest s username password role hospital_id
                     full_name dob sex pronouns bio salt
       = (Bool true, s')
       ∨ register_user sha256_hexdigest s username password role hospital_id
                       full_name dob sex pronouns bio salt
         = (Str "pending", s') →
       ∃ hospital data,
         hospitals s' !! hospital_id = Some hospital
         ∧ Hospital.users hospital !! user_key username role = Some data
         ∧ UserData.assigned_clinicians data = Some [])
  ∧ (∀ hospital_id patient_username clinician_username hospital data,
       hospitals s !! hospital_id = Some hospital →
       Hospital.users hospital !! user_key patient_username "patient"
       = Some data →
       get_assigned_clinicians_for_patient
         (assign_clinician_to_patient s hospital_id patient_username
                                      clinician_username).2
         hospital_id patient_username
       = if bool_decide (clinician_username ∉ UserData.assigned data)
         then (UserData.assigned data ++ [clinician_username])%list
         else UserData.assigned data).
Proof.
  intros Hreach. split_and!.
  - intros hospital_id key hospital data Hh Hd.
    exact (reachable_nodup s Hreach _ _ Hh _ _ Hd).
  - intros *. apply register_user_assigned_empty.
  - intros * Hh Hd.
    by destruct (assign_clinician_appends s hospital_id patient_username
                   clinician_username hospital data Hh Hd) as [_ ?].
Qed.

End Preservation.

Lemma reachable_assigned_nodup_witness :
  reachable example_hash example_run_service
  ∧ hospitals example_run_service !! "H1" = Some example_run_hospital
  ∧ Hospital.users example_run_hospital !! user_key "p1" "patient"
    = Some example_run_patient
  ∧ UserData.assigned example_run_patient = ["clin1"]
  ∧ NoDup (UserData.assigned example_run_patient)
  ∧ get_assigned_clinicians_for_patient
      (assign_clinician_to_patient example_run_service "H1" "p1" "clin2").2
      "H1" "p1"
    = ["clin1"; "clin2"].
Proof.
  assert (reachable example_hash example_run_service) as Hreach
    by (exists example_run; reflexivity).
  assert (hospitals example_run_service !! "H1" = Some example_run_hospital)
    as Hh by (vm_compute; reflexivity).
  assert (Hospital.users example_run_hospital !! user_key "p1" "patient"
          = Some example_run_patient) as Hd by (vm_compute; reflexivity).
  destruct (reachable_assigned_nodup example_hash example_run_service Hreach)
    as (Hnodup & _ & Hassign).
  split_and!; [exact Hreach | exact Hh | exact Hd | vm_compute; reflexivity
              | exact (Hnodup _ _ _ _ Hh Hd) |].
  rewrite (Hassign "H1" "p1" "clin2" _ _ Hh Hd). vm_compute. reflexivity.
Defined.

(** ** Changing a password *)

(** C10: for a user the hospital has and a [new_password] that is not
    empty, [update_user_profile] returns [True] and stores the fresh salt
    and the hash of salt and password, whatever [_is_strong_password]
    says of the password; [register_user] turns the same password down
    when it is weak. *)
Theorem update_user_profile_password (sha256_hexdigest : string -> string)
    (s : service) (hospital_id username role : string)
    (hospital : Hospital.t) (user_data : UserData.t) (details : Details.t)
    (new_password salt : string) :
  hospitals s !! hospital_id = Some hospital →
  Hospital.users hospital !! user_key username role = Some user_data →
  Details.new_password details = Some new_password →
  new_password ≠ "" →
  (∃ s' hospital' user_data',
     update_user_profile sha256_hexdigest s hospital_id username role
                         details salt = (true, s')
     ∧ hospitals s' !! hospital_id = Some hospital'
     ∧ Hospital.users hospital' !! user_key username role = Some user_data'
     ∧ UserData.salt user_data' = Some salt
     ∧ UserData.password_hash user_data'
       = sha256_hexdigest (salt +:+ new_password))
  ∧ (_is_strong_password new_password = false →
     ∀ s0 username0 role0 hospital_id0 full_name dob sex pronouns bio salt0,
       register_user sha256_hexdigest s0 username0 new_password role0
                     hospital_id0 full_name dob sex pronouns bio salt0
       = (Str "weak_password", s0)).
Proof.
  intros Hh Hu Hpw Hne. split.
  - unfold update_user_profile. rewrite Hh, Hu, Hpw.
    destruct new_password as [|c rest]; [done|]. simpl.
    eexists _, _, _. split; [reflexivity|]. simpl.
    rewrite lookup_insert_eq. split; [reflexivity|]. simpl.
    rewrite lookup_insert_eq. done.
  - intros Hweak *. unfold register_user. by rewrite Hweak.
Qed.

Lemma update_user_profile_password_witness :
  let s := example_service None in
  let details := Details.mk None None None None None (Some "abc") in
  hospitals s !! "H1" = Some example_hospital
  ∧ Hospital.users example_hospital !! user_key "p1" "patient"
    = Some (example_patient_record "p1" ["clin1"])
  ∧ _is_strong_password "abc" = false
  ∧ (∃ s' hospital' user_data',
       update_user_profile example_hash s "H1" "p1" "patient" details "77aa"
       = (true, s')
       ∧ hospitals s' !! "H1" = Some hospital'
       ∧ Hospital.users hospital' !! user_key "p1" "patient"
         = Some user_data'
       ∧ UserData.salt user_data' = Some "77aa"
       ∧ UserData.password_hash user_data' = example_hash ("77aa" +:+ "abc"))
  ∧ register_user example_hash s "p3" "abc" "patient" "H1" "N" "d" "x" "p" "b"
                  "77aa"
    = (Str "weak_password", s).
Proof.
  destruct (update_user_profile_password example_hash (example_service None)
              "H1" "p1" "patient" example_hospital
              (example_patient_record "p1" ["clin1"])
              (Details.mk None None None None None (Some "abc"))
              "abc" "77aa")
    as [Hupdate Hregister];
    [reflexivity | reflexivity | reflexivity | discriminate |].
  split; [reflexivity|]. split; [reflexivity|]. split; [reflexivity|].
  split; [exact Hupdate|]. apply Hregister. reflexivity.
Defined.

(** ** Deleting a clinician *)

(** What the loop over the user records does to one record whose list
    has no duplicates. *)
Lemma drop_assignment_spec (username : string) (data : UserData.t) :
  NoDup (UserData.assigned data) →
  let data' := drop_assignment username data in
  (UserData.role data = "patient" →
   UserData.assigned data'
   = filter (fun c => c ≠ username) (UserData.assigned data)
   ∧ username ∉ UserData.assigned data')
  ∧ (UserData.role data ≠ "patient" ∨ username ∉ UserData.assigned data →
     data' = data)
  ∧ UserData.username data' = UserData.username data
  ∧ UserData.role data' = UserData.role data
  ∧ UserData.password_hash data' = UserData.password_hash data
  ∧ UserData.salt data' = UserData.salt data
  ∧ UserData.status data' = UserData.status data.
Proof.
  intros Hnd. unfold drop_assignment.
  case_bool_decide as Hrole; [|by split_and!; try done].
  case_bool_decide as Hin; simpl.
  - destruct Hin as [_ Hin]. split_and!; try done.
    + intros _.
      change (UserData.assigned
                (UserData.set_assigned
                   (Py.remove username (UserData.assigned data)) data))
        with (Py.remove username (UserData.assigned data)).
      rewrite remove_nodup_filter by done.
      split; [done|]. rewrite list_elem_of_filter. by intros [? _].
    + by intros [?|?].
  - assert (username ∉ UserData.assigned data) as Hout.
    { intros Hin'. apply Hin. split; [|done]. by intros Heq; rewrite Heq in Hin';
        apply elem_of_nil in Hin'. }
    split_and!; try done. intros _. split; [|done].
    symmetry. apply filter_all_id. by intros c Hc ->.
Qed.

(** C7 (as the code has it): when the caller is not the clinician being
    deleted and no assignment list holds a name twice, [delete_user] with
    role clinician returns [True]; the clinician's record is gone, the
    name is gone from the list of every patient and every other entry of
    the lists stays in place, the records of the other roles are as they
    were, the notes left are those not written by the clinician with
    source clinician, in their order, and every patient's map of direct
    threads has lost the clinician's key and kept the others. *)
Theorem delete_clinician_cascade (s : service) (hospital_id username : string)
    (hospital : Hospital.t) (record : UserData.t) :
  hospitals s !! hospital_id = Some hospital →
  Hospital.users hospital !! user_key username "clinician" = Some record →
  is_current_user s username "clinician" = false →
  users_nodup (Hospital.users hospital) →
  ∃ hospital',
    delete_user s hospital_id username "clinician"
    = (true, set_hospital hospital_id hospital' s)
    ∧ Hospital.users hospital' !! user_key username "clinician" = None
    ∧ (∀ key, Hospital.users hospital !! key = None →
              Hospital.users hospital' !! key = None)
    ∧ (∀ key data,
         key ≠ user_key username "clinician" →
         Hospital.users hospital !! key = Some data →
         ∃ data',
           Hospital.users hospital' !! key = Some data'
           ∧ (UserData.role data = "patient" →
              UserData.assigned data'
              = filter (fun c => c ≠ username) (UserData.assigned data)
              ∧ username ∉ UserData.assigned data')
           ∧ (UserData.role data ≠ "patient"
              ∨ username ∉ UserData.assigned data → data' = data))
    ∧ Hospital.notes hospital'
      = filter (fun n => ¬ (Note.author_id n = username
                            ∧ Note.source n = "clinician"))
               (Hospital.notes hospital)
    ∧ Hospital.alerts hospital' = Hospital.alerts hospital
    ∧ (∀ patient_username,
         Chats.direct (Hospital.chats hospital') !! patient_username = None
         ↔ Chats.direct (Hospital.chats hospital) !! patient_username = None)
    ∧ (∀ patient_username threads,
         Chats.direct (Hospital.chats hospital) !! patient_username
         = Some threads →
         ∃ threads',
           Chats.direct (Hospital.chats hospital') !! patient_username
           = Some threads'
           ∧ threads' !! username = None
           ∧ ∀ clinician, clinician ≠ username →
                          threads' !! clinician = threads !! clinician).
Proof.
  intros Hh Hrec Hself Hnd. unfold delete_user.
  rewrite Hh, Hrec, Hself.
  rewrite bool_decide_eq_false_2 by done.
  rewrite bool_decide_eq_true_2 by done.
  eexists. split; [reflexivity|]. simpl. split_and!.
  - by rewrite lookup_fmap, lookup_delete_eq.
  - intros key Hnone. rewrite lookup_fmap, lookup_delete.
    case_decide; [done|]. by rewrite Hnone.
  - intros key data Hkey Hdata.
    rewrite lookup_fmap, lookup_delete_ne, Hdata by done. simpl.
    eexists. split; [reflexivity|].
    destruct (drop_assignment_spec username data (Hnd _ _ Hdata))
      as (Hpat & Hsame & _).
    by split.
  - done.
  - done.
  - intros p. rewrite lookup_fmap. by destruct (_ !! p).
  - intros p threads Hp. rewrite lookup_fmap, Hp. simpl.
    eexists. split; [reflexivity|]. unfold drop_thread.
    split; [apply lookup_delete_eq|].
    intros c Hc. by apply lookup_delete_ne.
Qed.

Lemma example_chat_hospital_nodup :
  users_nodup (Hospital.users example_chat_hospital).
Proof.
  unfold example_chat_hospital, example_hospital. simpl.
  repeat apply users_nodup_insert; try apply users_nodup_empty; simpl;
    try apply NoDup_nil_2.
  apply NoDup_singleton.
Qed.

Lemma delete_clinician_cascade_witness :
  let s := example_chat_service_as (Some (example_user "admin1" "admin")) in
  hospitals s !! "H1" = Some example_chat_hospital
  ∧ Hospital.users example_chat_hospital !! user_key "clin1" "clinician"
    = Some (example_staff_record "clin1" "clinician")
  ∧ is_current_user s "clin1" "clinician" = false
  ∧ ∃ hospital',
      delete_user s "H1" "clin1" "clinician"
      = (true, set_hospital "H1" hospital' s)
      ∧ Hospital.users hospital' !! user_key "clin1" "clinician" = None
      ∧ Hospital.notes hospital' = [example_private_note]
      ∧ (∃ data',
           Hospital.users hospital' !! user_key "p1" "patient" = Some data'
           ∧ UserData.assigned data' = [])
      ∧ ∃ threads',
          Chats.direct (Hospital.chats hospital') !! "p1" = Some threads'
          ∧ threads' !! "clin1" = None
          ∧ threads' !! "clin2"
            = Some [example_message "m2" "2024-01-05T09:00:00Z" "clin1";
                    example_message "m1" "2024-01-05T08:00:00Z" "clin1"].
Proof.
  set (s := example_chat_service_as (Some (example_user "admin1" "admin"))).
  split; [reflexivity|]. split; [reflexivity|]. split; [reflexivity|].
  destruct (delete_clinician_cascade s "H1" "clin1" example_chat_hospital
              (example_staff_record "clin1" "clinician")
              eq_refl eq_refl eq_refl example_chat_hospital_nodup)
    as (hospital' & Hcall & Hgone & _ & Husers & Hnotes & _ & _ & Hdirect).
  exists hospital'. split; [exact Hcall|]. split; [exact Hgone|].
  split; [rewrite Hnotes; reflexivity|]. split.
  - destruct (Husers (user_key "p1" "patient")
                (example_patient_record "p1" ["clin1"]))
      as (data' & Hdata' & Hpatient & _); [discriminate|reflexivity|].
    exists data'. split; [exact Hdata'|].
    destruct (Hpatient eq_refl) as [-> _]. reflexivity.
  - destruct (Hdirect "p1"
                (<["clin1" :=
                     [example_message "m2" "2024-01-05T09:00:00Z" "clin1";
                      example_message "m1" "2024-01-05T08:00:00Z" "clin1"]]>
                   (<["clin2" :=
                        [example_message "m2" "2024-01-05T09:00:00Z" "clin1";
                         example_message "m1" "2024-01-05T08:00:00Z" "clin1"]]>
                      ∅)))
      as (threads' & Hthreads & Hnone & Hkeep); [reflexivity|].
    exists threads'. split; [exact Hthreads|]. split; [exact Hnone|].
    rewrite Hkeep by discriminate. reflexivity.
Defined.

(** C7, as the specification words it, fails: clinician [clin1] is logged in and
    asks for the deletion of the own account. [delete_user] returns
    [False] and the service is as before: [clin1] is still assigned to
    [p1], the thread of [p1] and [clin1] and the note of [clin1] are still
    there. *)
Lemma delete_clinician_self_refused :
  let s := example_chat_service_as (Some (example_user "clin1" "clinician")) in
  Hospital.users example_chat_hospital !! user_key "clin1" "clinician"
  = Some (example_staff_record "clin1" "clinician")
  ∧ delete_user s "H1" "clin1" "clinician" = (false, s)
  ∧ get_assigned_clinicians_for_patient s "H1" "p1" = ["clin1"]
  ∧ direct_thread s "H1" "p1" "clin1"
    = [example_message "m2" "2024-01-05T09:00:00Z" "clin1";
       example_message "m1" "2024-01-05T08:00:00Z" "clin1"]
  ∧ Hospital.notes example_chat_hospital
    = [example_private_note; example_hidden_note]
  ∧ Note.author_id example_hidden_note = "clin1"
  ∧ Note.source example_hidden_note = "clinician".
Proof. by vm_compute. Qed.

(** * Further properties of the service *)

(** ** Registration and login *)

Lemma set_hospital_same (s : service) (hospital_id : string)
    (hospital : Hospital.t) :
  hospitals s !! hospital_id = Some hospital →
  set_hospital hospital_id hospital s = s.
Proof.
  intros Hh. destruct s as [u hs]. unfold set_hospital. simpl in *.
  by rewrite insert_id.
Qed.

Section Accounts.

Variable sha256_hexdigest : string -> string.

(** The three ways [register_user] turns a registration down. *)
Lemma register_user_refuses (s : service)
    (username password role hospital_id full_name dob sex pronouns bio : string)
    (salt : string) :
  let r :=
    register_user sha256_hexdigest s username password role hospital_id
                  full_name dob sex pronouns bio salt in
  (_is_strong_password password = false → r = (Str "weak_password", s))
  ∧ (_is_strong_password password = true →
     hospitals s !! hospital_id = None → role ≠ "admin" →
     r = (Str "hospital_not_found", s))
  ∧ (∀ hospital old,
       _is_strong_password password = true →
       hospitals s !! hospital_id = Some hospital →
       Hospital.users hospital !! user_key username role = Some old →
       r = (Bool false, s)).
Proof.
  intros r. unfold r, register_user. split_and!.
  - by intros ->.
  - intros -> Hnone Hrole. simpl. rewrite Hnone.
    rewrite bool_decide_eq_true_2 by done.
    by rewrite (bool_decide_eq_false_2 _ Hrole).
  - intros hospital old -> Hh Hold. simpl. rewrite Hh. simpl.
    rewrite Hold. by rewrite set_hospital_same.
Qed.

(** X1: a registration that is turned down changes nothing. A weak
    password gives ['weak_password']; a strong one gives
    ['hospital_not_found'] when the hospital is unknown and the role is
    not admin, and [False] when the hospital has the key already; in the
    three cases the service is the one that was passed. *)
Theorem register_user_rejected (s : service)
    (username password role hospital_id full_name dob sex pronouns bio : string)
    (salt : string) :
  let r :=
    register_user sha256_hexdigest s username password role hospital_id
                  full_name dob sex pronouns bio salt in
  (_is_strong_password password = false → r = (Str "weak_password", s))
  ∧ (_is_strong_password password = true →
     hospitals s !! hospital_id = None → role ≠ "admin" →
     r = (Str "hospital_not_found", s))
  ∧ (∀ hospital old,
       _is_strong_password password = true →
       hospitals s !! hospital_id = Some hospital →
       Hospital.users hospital !! user_key username role = Some old →
       r = (Bool false, s)).
Proof. apply register_user_refuses. Qed.

(** The record a registration stores, and what it returns. *)
Lemma register_user_accepted (s : service)
    (username password role hospital_id full_name dob sex pronouns bio : string)
    (salt : string) :
  _is_strong_password password = true →
  (hospitals s !! hospital_id = None → role = "admin") →
  Hospital.users (default Hospital.empty (hospitals s !! hospital_id))
  !! user_key username role = None →
  let existing := bool_decide (hospitals s !! hospital_id ≠ None) in
  let pending :=
    (bool_decide (role = "admin") || bool_decide (role = "clinician"))
    && existing in
  let record :=
    UserData.mk username (sha256_hexdigest (salt +:+ password)) role
                (Some salt) (if pending then "pending" else "approved")
                full_name dob sex pronouns bio (Some []) in
  let hospital := default Hospital.empty (hospitals s !! hospital_id) in
  register_user sha256_hexdigest s username password role hospital_id
                full_name dob sex pronouns bio salt
  = (if pending then Str "pending" else Bool true,
     set_hospital hospital_id
       (Hospital.set_users
          (<[user_key username role := record]> (Hospital.users hospital))
          hospital) s).
Proof.
  intros Hstrong Hadmin Hfree. simpl. unfold register_user.
  rewrite Hstrong. simpl.
  destruct (hospitals s !! hospital_id) as [h|] eqn:Hh; simpl in *.
  - rewrite Hfree.
    destruct (bool_decide (role = "admin") || bool_decide (role = "clinician"));
      simpl; f_equal; destruct s; unfold set_hospital; simpl;
      by rewrite insert_insert_eq.
  - rewrite Hadmin by done. simpl. rewrite lookup_empty.
    f_equal; destruct s; unfold set_hospital; simpl.
    by rewrite insert_insert_eq.
Qed.

(** The session object [login] builds from a stored record. *)
Lemma login_stored (s : service) (hospital_id username password role : string)
    (hospital : Hospital.t) (data : UserData.t) (salt : string) :
  hospitals s !! hospital_id = Some hospital →
  Hospital.users hospital !! user_key username role = Some data →
  UserData.status data ≠ "pending" →
  UserData.salt data = Some salt →
  salt ≠ "" →
  login sha256_hexdigest s username password role hospital_id
  = if bool_decide (UserData.password_hash data
                    = sha256_hexdigest (salt +:+ password))
    then
      let u :=
        User.mk (UserData.username data) (UserData.username data)
                (UserData.password_hash data) (UserData.role data)
                (UserData.full_name data) (UserData.dob data)
                (UserData.sex data) (UserData.pronouns data)
                (UserData.bio data) in
      (LoginUser u, set_current_user (Some u) s)
    else (LoginNone, s).
Proof.
  intros Hh Hd Hst Hsalt Hne. unfold login. rewrite Hh, Hd, Hsalt.
  rewrite (bool_decide_eq_false_2 _ Hst).
  by destruct salt.
Qed.

(** X2: a registration that returns [True] can log in. With a salt that
    is not empty, the same username, password, role and hospital give the
    session user of that name and role, and another password whose salted
    hash differs gives [None] and no session change. *)
Theorem register_then_login (s : service)
    (username password role hospital_id full_name dob sex pronouns bio : string)
    (salt : string) (s' : service) :
  register_user sha256_hexdigest s username password role hospital_id
                full_name dob sex pronouns bio salt = (Bool true, s') →
  salt ≠ "" →
  (∃ u,
     login sha256_hexdigest s' username password role hospital_id
     = (LoginUser u, set_current_user (Some u) s')
     ∧ User.username u = username
     ∧ User.role u = role
     ∧ User.user_id u = username
     ∧ User.full_name u = full_name)
  ∧ ∀ other,
      sha256_hexdigest (salt +:+ other)
      ≠ sha256_hexdigest (salt +:+ password) →
      login sha256_hexdigest s' username other role hospital_id
      = (LoginNone, s').
Proof.
  intros Hreg Hsalt.
  destruct (_is_strong_password password) eqn:Hstrong;
    [|by rewrite (proj1 (register_user_refuses s username password role
                           hospital_id full_name dob sex pronouns bio salt)
                        Hstrong) in Hreg].
  assert (hospitals s !! hospital_id = None → role = "admin") as Hadmin.
  { intros Hnone. destruct (decide (role = "admin")) as [|Hrole]; [done|].
    destruct (register_user_refuses s username password role hospital_id
                full_name dob sex pronouns bio salt) as (_ & Hnf & _).
    by rewrite (Hnf Hstrong Hnone Hrole) in Hreg. }
  assert (Hospital.users (default Hospital.empty (hospitals s !! hospital_id))
          !! user_key username role = None) as Hfree.
  { destruct (hospitals s !! hospital_id) as [h|] eqn:Hh; simpl; [|done].
    destruct (Hospital.users h !! user_key username role) as [old|] eqn:Hold;
      [|done].
    destruct (register_user_refuses s username password role hospital_id
                full_name dob sex pronouns bio salt) as (_ & _ & Hdup).
    by rewrite (Hdup h old Hstrong Hh Hold) in Hreg. }
  rewrite (register_user_accepted s username password role hospital_id
             full_name dob sex pronouns bio salt Hstrong Hadmin Hfree) in Hreg.
  simpl in Hreg.
  destruct ((bool_decide (role = "admin") || bool_decide (role = "clinician"))
            && bool_decide (hospitals s !! hospital_id ≠ None)) eqn:Hpending;
    [done|].
  injection Hreg as <-.
  split.
  - eexists. erewrite login_stored;
      [|apply lookup_insert_eq|apply lookup_insert_eq|done|done|done].
    simpl. rewrite bool_decide_eq_true_2 by done. done.
  - intros other Hother. erewrite login_stored;
      [|apply lookup_insert_eq|apply lookup_insert_eq|done|done|done].
    simpl. rewrite bool_decide_eq_false_2; [done|]. by intros ?.
Qed.

(** X3: an account that needs approval. A strong password, a hospital
    that exists, a free key and the role admin or clinician give
    ['pending']; [login] then answers ['pending'] and opens no session;
    after [approve_user] the same credentials log in. *)
Theorem register_pending_then_approve (s : service)
    (username password role hospital_id full_name dob sex pronouns bio : string)
    (salt : string) (hospital : Hospital.t) :
  _is_strong_password password = true →
  hospitals s !! hospital_id = Some hospital →
  Hospital.users hospital !! user_key username role = None →
  role = "admin" ∨ role = "clinician" →
  salt ≠ "" →
  ∃ s1 s2 u,
    register_user sha256_hexdigest s username password role hospital_id
                  full_name dob sex pronouns bio salt = (Str "pending", s1)
    ∧ login sha256_hexdigest s1 username password role hospital_id
      = (LoginStr "pending", s1)
    ∧ approve_user s1 username role hospital_id = (true, s2)
    ∧ login sha256_hexdigest s2 username password role hospital_id
      = (LoginUser u, set_current_user (Some u) s2)
    ∧ User.username u = username
    ∧ User.role u = role.
Proof.
  intros Hstrong Hh Hfree Hrole Hsalt.
  rewrite (register_user_accepted s username password role hospital_id
             full_name dob sex pronouns bio salt Hstrong)
    by (by rewrite Hh).
  rewrite Hh. simpl.
  assert (bool_decide (role = "admin") || bool_decide (role = "clinician")
          = true) as ->.
  { destruct Hrole as [->| ->]; by vm_compute. }
  simpl. eexists _, _, _. split; [reflexivity|].
  split.
  { unfold login. simpl. rewrite lookup_insert_eq. simpl.
    by rewrite lookup_insert_eq. }
  split.
  { unfold approve_user. simpl. rewrite lookup_insert_eq. simpl.
    rewrite lookup_insert_eq. reflexivity. }
  erewrite login_stored;
    [|apply lookup_insert_eq|apply lookup_insert_eq|done|done|done].
  simpl. rewrite bool_decide_eq_true_2 by done. done.
Qed.

(** X4: a changed password is the one that logs in. For an account that
    is not pending, a new password that is not empty and a fresh salt that
    is not empty, [login] accepts the new password after
    [update_user_profile] and turns down every password whose hash with
    the new salt differs, the old one included. *)
Theorem update_password_then_login (s : service)
    (hospital_id username role : string) (hospital : Hospital.t)
    (data : UserData.t) (details : Details.t) (new_password salt : string) :
  hospitals s !! hospital_id = Some hospital →
  Hospital.users hospital !! user_key username role = Some data →
  UserData.status data ≠ "pending" →
  Details.new_password details = Some new_password →
  new_password ≠ "" →
  salt ≠ "" →
  ∃ s',
    update_user_profile sha256_hexdigest s hospital_id username role
                        details salt = (true, s')
    ∧ (∃ u,
         login sha256_hexdigest s' username new_password role hospital_id
         = (LoginUser u, set_current_user (Some u) s')
         ∧ User.username u = UserData.username data
         ∧ User.role u = UserData.role data)
    ∧ ∀ other,
        sha256_hexdigest (salt +:+ other)
        ≠ sha256_hexdigest (salt +:+ new_password) →
        login sha256_hexdigest s' username other role hospital_id
        = (LoginNone, s').
Proof.
  intros Hh Hd Hst Hpw Hne Hsalt. unfold update_user_profile.
  rewrite Hh, Hd, Hpw. destruct new_password as [|c rest]; [done|]. simpl.
  eexists. split; [reflexivity|]. split.
  - eexists. erewrite login_stored;
      [|apply lookup_insert_eq|apply lookup_insert_eq|done|done|done].
    simpl. rewrite bool_decide_eq_true_2 by done. done.
  - intros other Hother. erewrite login_stored;
      [|apply lookup_insert_eq|apply lookup_insert_eq|done|done|done].
    simpl. rewrite bool_decide_eq_false_2; [done|]. by intros ?.
Qed.

(** X5: [login] opens a session only for an account of the hospital that
    is not pending and whose stored hash is the hash of its salt and the
    password; every other outcome returns the service it was given, so a
    failed login does not end an earlier session. *)
Theorem login_sound (s : service)
    (username password role hospital_id : string) :
  let r := login sha256_hexdigest s username password role hospital_id in
  hospitals r.2 = hospitals s
  ∧ (∀ u, r.1 = LoginUser u →
          r.2 = set_current_user (Some u) s
          ∧ ∃ hospital data salt,
              hospitals s !! hospital_id = Some hospital
              ∧ Hospital.users hospital !! user_key username role = Some data
              ∧ UserData.status data ≠ "pending"
              ∧ UserData.salt data = Some salt
              ∧ UserData.password_hash data
                = sha256_hexdigest (salt +:+ password)
              ∧ User.username u = UserData.username data
              ∧ User.role u = UserData.role data)
  ∧ ((∀ u, r.1 ≠ LoginUser u) → r.2 = s).
Proof.
  unfold login.
  destruct (hospitals s !! hospital_id) as [h|] eqn:Hh; simpl;
    [|by split_and!].
  destruct (Hospital.users h !! user_key username role) as [d|] eqn:Hd;
    simpl; [|by split_and!].
  case_bool_decide as Hst; simpl; [by split_and!|].
  destruct (UserData.salt d) as [salt|] eqn:Hsalt; simpl; [|by split_and!].
  destruct (Py.truthy salt); simpl; [|by split_and!].
  case_bool_decide as Hhash; simpl; [|by split_and!].
  split_and!; [done| |by intros Hno; destruct (Hno _ eq_refl)].
  intros u [= <-]. split; [done|]. by eexists h, d, salt.
Qed.

End Accounts.

Lemma register_user_rejected_witness :
  let s := example_service None in
  register_user example_hash s "p3" "abc" "patient" "H1" "N" "d" "x" "p" "b"
                "77aa" = (Str "weak_password", s)
  ∧ register_user example_hash s "p3" "V4lid!Pass" "patient" "H9" "N" "d" "x"
                  "p" "b" "77aa" = (Str "hospital_not_found", s)
  ∧ register_user example_hash s "p1" "V4lid!Pass" "patient" "H1" "N" "d" "x"
                  "p" "b" "77aa" = (Bool false, s).
Proof.
  split_and!.
  - apply (register_user_rejected example_hash (example_service None)
             "p3" "abc" "patient" "H1" "N" "d" "x" "p" "b" "77aa").
    reflexivity.
  - apply (register_user_rejected example_hash (example_service None)
             "p3" "V4lid!Pass" "patient" "H9" "N" "d" "x" "p" "b" "77aa");
      [reflexivity | reflexivity | discriminate].
  - apply (proj2 (proj2 (register_user_rejected example_hash
                           (example_service None) "p1" "V4lid!Pass" "patient"
                           "H1" "N" "d" "x" "p" "b" "77aa"))
             example_hospital (example_patient_record "p1" ["clin1"]));
      reflexivity.
Defined.

Lemma register_then_login_witness :
  let s' :=
    (register_user example_hash empty_service "admin1" "V4lid!Pass" "admin"
                   "H1" "Admin" "1980-01-01" "Other" "they/them" "bio"
                   "5a17").2 in
  register_user example_hash empty_service "admin1" "V4lid!Pass" "admin"
                "H1" "Admin" "1980-01-01" "Other" "they/them" "bio" "5a17"
  = (Bool true, s')
  ∧ (∃ u,
       login example_hash s' "admin1" "V4lid!Pass" "admin" "H1"
       = (LoginUser u, set_current_user (Some u) s')
       ∧ User.username u = "admin1"
       ∧ User.role u = "admin"
       ∧ User.user_id u = "admin1"
       ∧ User.full_name u = "Admin")
  ∧ login example_hash s' "admin1" "Wr0ng!Pass" "admin" "H1" = (LoginNone, s').
Proof.
  set (s' := (register_user example_hash empty_service "admin1" "V4lid!Pass"
                "admin" "H1" "Admin" "1980-01-01" "Other" "they/them" "bio"
                "5a17").2).
  assert (register_user example_hash empty_service "admin1" "V4lid!Pass"
            "admin" "H1" "Admin" "1980-01-01" "Other" "they/them" "bio" "5a17"
          = (Bool true, s')) as Hreg by (vm_compute; reflexivity).
  destruct (register_then_login example_hash empty_service "admin1"
              "V4lid!Pass" "admin" "H1" "Admin" "1980-01-01" "Other"
              "they/them" "bio" "5a17" s' Hreg) as [Hin Hout];
    [discriminate|].
  split; [exact Hreg|]. split; [exact Hin|].
  apply Hout. vm_compute. discriminate.
Defined.

Lemma register_pending_then_approve_witness :
  let s := example_service None in
  _is_strong_password "V4lid!Pass" = true
  ∧ hospitals s !! "H1" = Some example_hospital
  ∧ Hospital.users example_hospital !! user_key "clin3" "clinician" = None
  ∧ ∃ s1 s2 u,
      register_user example_hash s "clin3" "V4lid!Pass" "clinician" "H1"
                    "N" "d" "x" "p" "b" "77aa" = (Str "pending", s1)
      ∧ login example_hash s1 "clin3" "V4lid!Pass" "clinician" "H1"
        = (LoginStr "pending", s1)
      ∧ approve_user s1 "clin3" "clinician" "H1" = (true, s2)
      ∧ login example_hash s2 "clin3" "V4lid!Pass" "clinician" "H1"
        = (LoginUser u, set_current_user (Some u) s2)
      ∧ User.username u = "clin3"
      ∧ User.role u = "clinician".
Proof.
  split; [reflexivity|]. split; [reflexivity|]. split; [reflexivity|].
  apply (register_pending_then_approve example_hash (example_service None)
           "clin3" "V4lid!Pass" "clinician" "H1" "N" "d" "x" "p" "b" "77aa"
           example_hospital);
    [reflexivity | reflexivity | reflexivity | by right | discriminate].
Defined.

Lemma update_password_then_login_witness :
  let s := example_service None in
  let details := Details.mk None None None None None (Some "abc") in
  hospitals s !! "H1" = Some example_hospital
  ∧ Hospital.users example_hospital !! user_key "p1" "patient"
    = Some (example_patient_record "p1" ["clin1"])
  ∧ ∃ s',
      update_user_profile example_hash s "H1" "p1" "patient" details "77aa"
      = (true, s')
      ∧ (∃ u,
           login example_hash s' "p1" "abc" "patient" "H1"
           = (LoginUser u, set_current_user (Some u) s')
           ∧ User.username u = "p1"
           ∧ User.role u = "patient")
      ∧ login example_hash s' "p1" "V4lid!Pass" "patient" "H1"
        = (LoginNone, s').
Proof.
  split; [reflexivity|]. split; [reflexivity|].
  destruct (update_password_then_login example_hash (example_service None)
              "H1" "p1" "patient" example_hospital
              (example_patient_record "p1" ["clin1"])
              (Details.mk None None None None None (Some "abc")) "abc" "77aa")
    as (s' & Hupd & Hin & Hout).
  - reflexivity.
  - reflexivity.
  - discriminate.
  - reflexivity.
  - discriminate.
  - discriminate.
  - exists s'. split; [exact Hupd|]. split; [exact Hin|].
    apply Hout. vm_compute. discriminate.
Defined.

Lemma login_sound_witness :
  let s := example_service (Some (example_user "admin1" "admin")) in
  (login example_hash s "p1" "guess" "patient" "H1").2 = s.
Proof.
  intros s.
  destruct (login_sound example_hash s "p1" "guess" "patient" "H1")
    as (_ & _ & Hfail).
  apply Hfail. intros u. vm_compute. discriminate.
Defined.

(** ** Notes and alerts *)

(** X6: [delete_note] in a hospital the store has returns [True] whether
    or not a note has the id; afterwards no note of the hospital has it,
    the other notes are there in their order, users, alerts and chats are
    as before, and a second call changes nothing more. *)
Theorem delete_note_effect (s : service) (note_id hospital_id : string)
    (hospital : Hospital.t) :
  hospitals s !! hospital_id = Some hospital →
  let kept :=
    filter (fun n => Note.note_id n ≠ note_id) (Hospital.notes hospital) in
  let s' := set_hospital hospital_id (Hospital.set_notes kept hospital) s in
  delete_note s note_id hospital_id = (true, s')
  ∧ (∀ n, n ∈ kept → Note.note_id n ≠ note_id)
  ∧ (∀ n, n ∈ Hospital.notes hospital → Note.note_id n ≠ note_id → n ∈ kept)
  ∧ kept `sublist_of` Hospital.notes hospital
  ∧ delete_note s' note_id hospital_id = (true, s').
Proof.
  intros Hh kept s'. unfold delete_note. rewrite Hh. split_and!.
  - done.
  - intros n. unfold kept. rewrite list_elem_of_filter. by intros [? _].
  - intros n Hn Hid. unfold kept. by rewrite list_elem_of_filter.
  - apply sublist_filter.
  - unfold s'. simpl. rewrite lookup_insert_eq. simpl.
    unfold kept. rewrite list_filter_filter.
    rewrite (list_filter_iff _ (fun n => Note.note_id n ≠ note_id))
      by (intros n; tauto).
    f_equal. unfold set_hospital. simpl. by rewrite insert_insert_eq.
Qed.

Lemma delete_note_effect_witness :
  let s := example_service None in
  hospitals s !! "H1" = Some example_hospital
  ∧ ∃ s',
      delete_note s "n1" "H1" = (true, s')
      ∧ from_option Hospital.notes [] (hospitals s' !! "H1")
        = [example_hidden_note]
      ∧ delete_note s' "n1" "H1" = (true, s').
Proof.
  split; [reflexivity|].
  destruct (delete_note_effect (example_service None) "n1" "H1"
              example_hospital eq_refl) as (Hcall & _ & _ & _ & Hagain).
  eexists. split; [exact Hcall|]. split; [reflexivity|exact Hagain].
Defined.

(** X7: whatever the caller, [get_notes_for_patient] returns notes the
    hospital stores for the patient asked for, in the order of the store:
    the result is a sublist of the patient's notes, so no note of another
    patient and no note of another hospital is in it. *)
Theorem get_notes_only_of_patient (s : service)
    (hospital_id patient_id : string) :
  let stored := from_option Hospital.notes [] (hospitals s !! hospital_id) in
  get_notes_for_patient s hospital_id patient_id
  `sublist_of` filter (fun n => Note.patient_id n = patient_id) stored
  ∧ ∀ n, n ∈ get_notes_for_patient s hospital_id patient_id →
         Note.patient_id n = patient_id ∧ n ∈ stored.
Proof.
  intros stored.
  assert (get_notes_for_patient s hospital_id patient_id
          `sublist_of` filter (fun n => Note.patient_id n = patient_id) stored)
    as Hsub.
  { unfold get_notes_for_patient. fold stored.
    destruct (current_user s) as [u|]; [|done].
    case_bool_decide; [|done].
    case_bool_decide; [apply sublist_filter|apply sublist_nil_l]. }
  split; [done|]. intros n Hn.
  apply (sublist_subseteq _ _ Hsub), list_elem_of_filter in Hn. done.
Qed.

(** X8: [dismiss_alert] in a hospital the store has returns [True],
    removes every alert with the id and keeps the others in order. After
    [add_note] has raised an alert for a patient note with pain 10,
    dismissing the note's id gives back the alerts there were before,
    provided none of them had that id; the note itself stays. *)
Theorem add_note_then_dismiss (s : service) (hospital_id : string)
    (hospital : Hospital.t) (note : Note.t) :
  hospitals s !! hospital_id = Some hospital →
  Note.pain note = 10 →
  Note.source note = "patient" →
  (∀ a, a ∈ Hospital.alerts hospital →
        Alert.alert_id a ≠ Note.note_id note) →
  let s1 := add_note s note hospital_id in
  ∃ s2,
    dismiss_alert s1 hospital_id (Note.note_id note) = Py.Ok (true, s2)
    ∧ get_pain_alerts s1 hospital_id
      = (Hospital.alerts hospital
         ++ [Alert.mk (Note.note_id note) (Note.patient_id note)
                      (Note.timestamp note) "new"])%list
    ∧ get_pain_alerts s2 hospital_id = Hospital.alerts hospital
    ∧ from_option Hospital.notes [] (hospitals s2 !! hospital_id)
      = (Hospital.notes hospital ++ [note])%list.
Proof.
  intros Hh Hpain Hsrc Hfresh. simpl.
  unfold add_note, dismiss_alert, get_pain_alerts. rewrite Hh.
  rewrite (bool_decide_eq_true_2 _ Hpain), (bool_decide_eq_true_2 _ Hsrc).
  simpl. rewrite !lookup_insert_eq. simpl.
  eexists. split; [reflexivity|]. simpl. rewrite !lookup_insert_eq. simpl.
  split; [done|]. split; [|done].
  rewrite filter_app, filter_cons, filter_nil. simpl.
  rewrite decide_False by (by intros Hne; apply Hne).
  rewrite app_nil_r. apply filter_all_id. intros a Ha. by apply Hfresh.
Qed.

Lemma add_note_then_dismiss_witness :
  let s := example_service None in
  let note :=
    Note.mk "n3" "H1" "p1" "p1" "2024-01-03T09:00:00" 5 10 4
            "Very high pain" "" "patient" false false None in
  hospitals s !! "H1" = Some example_hospital
  ∧ ∃ s2,
      dismiss_alert (add_note s note "H1") "H1" "n3" = Py.Ok (true, s2)
      ∧ get_pain_alerts (add_note s note "H1") "H1"
        = [Alert.mk "n3" "p1" "2024-01-03T09:00:00" "new"]
      ∧ get_pain_alerts s2 "H1" = [].
Proof.
  split; [reflexivity|].
  destruct (add_note_then_dismiss (example_service None) "H1" example_hospital
              (Note.mk "n3" "H1" "p1" "p1" "2024-01-03T09:00:00" 5 10 4
                       "Very high pain" "" "patient" false false None))
    as (s2 & Hcall & Hraised & Hback & _).
  - reflexivity.
  - reflexivity.
  - reflexivity.
  - intros a Ha. inversion Ha.
  - exists s2. split; [exact Hcall|]. split; [exact Hraised|exact Hback].
Defined.

(** ** Assignments *)

Lemma remove_app_last (x : string) (l : list string) :
  x ∉ l → Py.remove x (l ++ [x]) = l.
Proof.
  induction l as [|y l IH]; simpl; intros Hx.
  - by rewrite decide_True.
  - apply not_elem_of_cons in Hx as [Hxy Hx].
    rewrite decide_False by done. by rewrite IH.
Qed.

(** X9: assigning and unassigning. For a patient of the hospital who
    does not have the clinician, [assign_clinician_to_patient] returns
    [True] and puts the clinician last; a second assignment returns
    [False] and changes nothing; [unassign_clinician_from_patient] then
    returns [True] and the list is the one before the assignment; a
    second one returns [False] and changes nothing. *)
Theorem assign_unassign_round_trip (s : service)
    (hospital_id patient_username clinician_username : string)
    (hospital : Hospital.t) (data : UserData.t) :
  hospitals s !! hospital_id = Some hospital →
  Hospital.users hospital !! user_key patient_username "patient"
  = Some data →
  clinician_username ∉ UserData.assigned data →
  ∃ s1 s2,
    assign_clinician_to_patient s hospital_id patient_username
                                clinician_username = (true, s1)
    ∧ get_assigned_clinicians_for_patient s1 hospital_id patient_username
      = (UserData.assigned data ++ [clinician_username])%list
    ∧ assign_clinician_to_patient s1 hospital_id patient_username
                                  clinician_username = (false, s1)
    ∧ unassign_clinician_from_patient s1 hospital_id patient_username
                                      clinician_username = (true, s2)
    ∧ get_assigned_clinicians_for_patient s2 hospital_id patient_username
      = UserData.assigned data
    ∧ unassign_clinician_from_patient s2 hospital_id patient_username
                                      clinician_username = (false, s2).
Proof.
  intros Hh Hd Hout.
  assert (clinician_username
          ∈ (UserData.assigned data ++ [clinician_username])%list) as Hin
    by (apply elem_of_app; right; apply list_elem_of_singleton; done).
  unfold assign_clinician_to_patient at 1. rewrite Hh, Hd.
  rewrite (bool_decide_eq_true_2 _ Hout).
  eexists _, _. split; [reflexivity|].
  unfold get_assigned_clinicians_for_patient, assign_clinician_to_patient,
    unassign_clinician_from_patient.
  simpl. rewrite !lookup_insert_eq. simpl. rewrite !lookup_insert_eq. simpl.
  split; [done|].
  rewrite (bool_decide_eq_false_2
             (clinician_username
              ∉ (UserData.assigned data ++ [clinician_username])%list))
    by (by intros Hno; apply Hno).
  rewrite (bool_decide_eq_true_2 _ Hin).
  split.
  { f_equal. unfold set_hospital. simpl.
    rewrite !insert_insert_eq. done. }
  split; [reflexivity|]. simpl.
  rewrite !lookup_insert_eq. simpl. rewrite !lookup_insert_eq. simpl.
  rewrite remove_app_last by done.
  split; [done|].
  by rewrite (bool_decide_eq_false_2 _ Hout).
Qed.

Lemma assign_unassign_round_trip_witness :
  let s := example_service None in
  hospitals s !! "H1" = Some example_hospital
  ∧ Hospital.users example_hospital !! user_key "p1" "patient"
    = Some (example_patient_record "p1" ["clin1"])
  ∧ ∃ s1 s2,
      assign_clinician_to_patient s "H1" "p1" "clin2" = (true, s1)
      ∧ get_assigned_clinicians_for_patient s1 "H1" "p1" = ["clin1"; "clin2"]
      ∧ assign_clinician_to_patient s1 "H1" "p1" "clin2" = (false, s1)
      ∧ unassign_clinician_from_patient s1 "H1" "p1" "clin2" = (true, s2)
      ∧ get_assigned_clinicians_for_patient s2 "H1" "p1" = ["clin1"]
      ∧ unassign_clinician_from_patient s2 "H1" "p1" "clin2" = (false, s2).
Proof.
  split; [reflexivity|]. split; [reflexivity|].
  apply (assign_unassign_round_trip (example_service None) "H1" "p1" "clin2"
           example_hospital (example_patient_record "p1" ["clin1"]));
    [reflexivity | reflexivity |].
  simpl. intros H. inversion H as [|? ? ? H']; inversion H'.
Defined.

(** ** Deleting users *)

(** X10: deleting a patient. When the caller is not that patient,
    [delete_user] with role patient returns [True]; the record is gone and
    the other records are as they were, the notes left are those of the
    other patients in their order, the general thread and the direct
    threads of the patient are gone and those of the others are as they
    were. The alerts are not touched, so alerts of the deleted patient
    stay. *)
Theorem delete_patient_cascade (s : service) (hospital_id username : string)
    (hospital : Hospital.t) (record : UserData.t) :
  hospitals s !! hospital_id = Some hospital →
  Hospital.users hospital !! user_key username "patient" = Some record →
  is_current_user s username "patient" = false →
  ∃ hospital',
    delete_user s hospital_id username "patient"
    = (true, set_hospital hospital_id hospital' s)
    ∧ Hospital.users hospital'
      = delete (user_key username "patient") (Hospital.users hospital)
    ∧ Hospital.notes hospital'
      = filter (fun n => Note.patient_id n ≠ username)
               (Hospital.notes hospital)
    ∧ Hospital.alerts hospital' = Hospital.alerts hospital
    ∧ Chats.general (Hospital.chats hospital') !! username = None
    ∧ Chats.direct (Hospital.chats hospital') !! username = None
    ∧ ∀ other, other ≠ username →
        Chats.general (Hospital.chats hospital') !! other
        = Chats.general (Hospital.chats hospital) !! other
        ∧ Chats.direct (Hospital.chats hospital') !! other
          = Chats.direct (Hospital.chats hospital) !! other.
Proof.
  intros Hh Hrec Hself. unfold delete_user. rewrite Hh, Hrec, Hself.
  rewrite bool_decide_eq_true_2 by done.
  eexists. split; [reflexivity|]. simpl. split_and!; try done.
  - apply lookup_delete_eq.
  - apply lookup_delete_eq.
  - intros other Hother. by rewrite !lookup_delete_ne.
Qed.

Lemma delete_patient_cascade_witness :
  let s := example_chat_service_as (Some (example_user "admin1" "admin")) in
  let note :=
    Note.mk "n3" "H1" "p1" "p1" "2024-01-03T09:00:00" 5 10 4
            "Very high pain" "" "patient" false false None in
  let s1 := add_note s note "H1" in
  ∃ hospital1 hospital',
    hospitals s1 !! "H1" = Some hospital1
    ∧ delete_user s1 "H1" "p1" "patient"
      = (true, set_hospital "H1" hospital' s1)
    ∧ Hospital.notes hospital' = []
    ∧ Hospital.alerts hospital'
      = [Alert.mk "n3" "p1" "2024-01-03T09:00:00" "new"]
    ∧ Chats.general (Hospital.chats hospital') !! "p1" = None.
Proof.
  intros s note s1.
  set (hospital1 := default Hospital.empty (hospitals s1 !! "H1")).
  assert (hospitals s1 !! "H1" = Some hospital1) as Hh
    by (vm_compute; reflexivity).
  destruct (delete_patient_cascade s1 "H1" "p1" hospital1
              (example_patient_record "p1" ["clin1"]) Hh)
    as (hospital' & Hcall & _ & Hnotes & Halerts & Hgen & _).
  - vm_compute. reflexivity.
  - reflexivity.
  - exists hospital1, hospital'. split; [exact Hh|]. split; [exact Hcall|].
    split; [rewrite Hnotes; vm_compute; reflexivity|].
    split; [rewrite Halerts; vm_compute; reflexivity|exact Hgen].
Defined.

(** X11: deleting an account of any other role, an admin in particular.
    When the caller is not that account, [delete_user] returns [True]; the
    record is gone, the other records, the notes and the alerts are as
    they were, every general thread and every direct thread keeps its key
    and loses the messages whose sender is the username, the others
    staying in order. *)
Theorem delete_admin_cascade (s : service) (hospital_id username role : string)
    (hospital : Hospital.t) (record : UserData.t) :
  hospitals s !! hospital_id = Some hospital →
  Hospital.users hospital !! user_key username role = Some record →
  is_current_user s username role = false →
  role ≠ "patient" →
  role ≠ "clinician" →
  ∃ hospital',
    delete_user s hospital_id username role
    = (true, set_hospital hospital_id hospital' s)
    ∧ Hospital.users hospital'
      = delete (user_key username role) (Hospital.users hospital)
    ∧ Hospital.notes hospital' = Hospital.notes hospital
    ∧ Hospital.alerts hospital' = Hospital.alerts hospital
    ∧ (∀ patient,
         Chats.general (Hospital.chats hospital') !! patient
         = filter (fun m => Message.sender m ≠ username)
           <$> Chats.general (Hospital.chats hospital) !! patient)
    ∧ (∀ patient clinician,
         Chats.direct (Hospital.chats hospital') !! patient
         ≫= (fun threads => threads !! clinician)
         = filter (fun m => Message.sender m ≠ username)
           <$> (Chats.direct (Hospital.chats hospital) !! patient
                ≫= fun threads => threads !! clinician)).
Proof.
  intros Hh Hrec Hself Hp Hc. unfold delete_user. rewrite Hh, Hrec, Hself.
  rewrite (bool_decide_eq_false_2 _ Hp), (bool_decide_eq_false_2 _ Hc).
  eexists. split; [reflexivity|]. simpl. split_and!; try done.
  - intros patient. by rewrite lookup_fmap.
  - intros patient clinician. rewrite lookup_fmap.
    destruct (Chats.direct (Hospital.chats hospital) !! patient) as [t|];
      simpl; [|done].
    unfold strip_threads. by rewrite lookup_fmap.
Qed.

Lemma delete_admin_cascade_witness :
  let s := example_chat_service_as (Some (example_user "admin1" "admin")) in
  hospitals s !! "H1" = Some example_chat_hospital
  ∧ ∃ hospital',
      delete_user (example_chat_service_as None) "H1" "admin1" "admin"
        = (true, set_hospital "H1" hospital' (example_chat_service_as None))
      ∧ Hospital.notes hospital' = Hospital.notes example_chat_hospital
      ∧ Chats.general (Hospital.chats hospital') !! "p1"
        = Some [example_message "m2" "2024-01-05T09:00:00Z" "clin1";
                example_message "m1" "2024-01-05T08:00:00Z" "clin1"].
Proof.
  split; [reflexivity|].
  destruct (delete_admin_cascade (example_chat_service_as None) "H1" "admin1"
              "admin" example_chat_hospital
              (example_staff_record "admin1" "admin"))
    as (hospital' & Hcall & _ & Hnotes & _ & Hgen & _).
  - reflexivity.
  - reflexivity.
  - reflexivity.
  - discriminate.
  - discriminate.
  - exists hospital'. split; [exact Hcall|]. split; [exact Hnotes|].
    rewrite Hgen. vm_compute. reflexivity.
Defined.

(** X12: when [delete_user] refuses. An unknown hospital, a key the
    hospital does not have and the account of the current session give
    [False] and the service that was passed. After a deletion that
    returned [True], [login] with the deleted username and role returns
    [None] whatever the password. *)
Theorem delete_user_refused_or_final (sha256_hexdigest : string -> string)
    (s : service) (hospital_id username role : string) :
  let r := delete_user s hospital_id username role in
  (hospitals s !! hospital_id = None → r = (false, s))
  ∧ (∀ hospital,
       hospitals s !! hospital_id = Some hospital →
       Hospital.users hospital !! user_key username role = None →
       r = (false, s))
  ∧ (is_current_user s username role = true → r = (false, s))
  ∧ (r.1 = true →
     ∀ password,
       login sha256_hexdigest r.2 username password role hospital_id
       = (LoginNone, r.2)).
Proof.
  unfold delete_user. split_and!.
  - by intros ->.
  - by intros hospital -> ->.
  - intros ->. destruct (hospitals s !! hospital_id) as [h|]; [|done].
    by destruct (Hospital.users h !! user_key username role).
  - destruct (hospitals s !! hospital_id) as [h|] eqn:Hh; [|done].
    destruct (Hospital.users h !! user_key username role) eqn:Hu; [|done].
    destruct (is_current_user s username role); [done|]. simpl.
    intros _ password. unfold login. simpl. rewrite lookup_insert_eq.
    repeat case_bool_decide; simpl;
      by rewrite ?lookup_fmap, lookup_delete_eq.
Qed.

Lemma delete_user_refused_or_final_witness :
  let s := example_service (Some (example_user "admin1" "admin")) in
  delete_user s "H9" "p1" "patient" = (false, s)
  ∧ delete_user s "H1" "p9" "patient" = (false, s)
  ∧ delete_user s "H1" "admin1" "admin" = (false, s)
  ∧ login example_hash (delete_user s "H1" "p1" "patient").2
          "p1" "V4lid!Pass" "patient" "H1"
    = (LoginNone, (delete_user s "H1" "p1" "patient").2).
Proof.
  intros s.
  destruct (delete_user_refused_or_final example_hash s "H9" "p1" "patient")
    as (H1 & _).
  destruct (delete_user_refused_or_final example_hash s "H1" "p9" "patient")
    as (_ & H2 & _).
  destruct (delete_user_refused_or_final example_hash s "H1" "admin1" "admin")
    as (_ & _ & H3 & _).
  destruct (delete_user_refused_or_final example_hash s "H1" "p1" "patient")
    as (_ & _ & _ & H4).
  split; [apply H1; reflexivity|].
  split; [apply (H2 example_hospital); reflexivity|].
  split; [apply H3; reflexivity|].
  apply H4. reflexivity.
Defined.

(** ** The chat store *)

Lemma sort_by_snoc {A} (key : A -> string) (l : list A) (x : A) :
  (∀ y, y ∈ l → String.leb (key y) (key x) = true) →
  Py.sort_by key (l ++ [x]) = (Py.sort_by key l ++ [x])%list.
Proof.
  intros Hmax.
  assert (∀ y m, String.leb (key y) (key x) = true →
                 Py.insert_by key y (m ++ [x])
                 = (Py.insert_by key y m ++ [x])%list) as Hins.
  { intros y m Hy. induction m as [|z m IH]; simpl.
    - by rewrite Hy.
    - destruct (String.leb (key y) (key z)); [done|]. by rewrite IH. }
  induction l as [|y l IH]; simpl; [done|].
  rewrite IH by (intros z Hz; apply Hmax; by right).
  apply Hins, Hmax. by left.
Qed.

Lemma rstrip_idempotent (s : string) : Py.rstrip (Py.rstrip s) = Py.rstrip s.
Proof.
  induction s as [|c s IH]; simpl; [done|].
  destruct (Py.rstrip s) as [|d r] eqn:Hr.
  - destruct (Py.isspace c) eqn:Hc; simpl; [done|]. by rewrite Hc.
  - simpl in *. rewrite IH. done.
Qed.

Lemma lstrip_rstrip_lstrip (s : string) :
  Py.lstrip (Py.rstrip (Py.lstrip s)) = Py.rstrip (Py.lstrip s).
Proof.
  assert (∀ t, Py.lstrip t = t → Py.lstrip (Py.rstrip t) = Py.rstrip t)
    as Hkeep.
  { intros [|c t]; simpl; [done|].
    destruct (Py.isspace c) eqn:Hc.
    - intros Heq. exfalso.
      assert (String.length (Py.lstrip t) <= String.length t)%nat as Hlen.
      { clear. induction t as [|d t IH]; simpl; [lia|].
        destruct (Py.isspace d); simpl; lia. }
      rewrite Heq in Hlen. simpl in Hlen. lia.
    - intros _. destruct (Py.rstrip t); simpl; by rewrite Hc. }
  apply Hkeep. induction s as [|c s IH]; simpl; [done|].
  destruct (Py.isspace c) eqn:Hc; [done|]. simpl. by rewrite Hc.
Qed.

(** What [(message or "").strip()] gives has no whitespace at either
    end. *)
Lemma strip_idempotent (s : string) : Py.strip (Py.strip s) = Py.strip s.
Proof.
  unfold Py.strip. by rewrite lstrip_rstrip_lstrip, rstrip_idempotent.
Qed.

(** What the readers return, in terms of the thread of the store. *)
Lemma get_general_messages_result (s : service)
    (hospital_id patient_username : string) (limit : option Z) :
  (get_general_messages s hospital_id patient_username limit).1
  = tail_limit limit
      (Py.sort_by Message.timestamp
                  (general_thread s hospital_id patient_username)).
Proof.
  unfold get_general_messages, _ensure_general_thread, general_thread. simpl.
  by destruct (hospitals s !! hospital_id).
Qed.

Lemma get_direct_messages_result (s : service)
    (hospital_id patient_username clinician_username : string)
    (limit : option Z) :
  (get_direct_messages s hospital_id patient_username clinician_username
                       limit).1
  = tail_limit limit
      (Py.sort_by Message.timestamp
         (direct_thread s hospital_id patient_username clinician_username)).
Proof.
  unfold get_direct_messages, _ensure_direct_thread, direct_thread. simpl.
  destruct (hospitals s !! hospital_id) as [h|]; simpl; [|done].
  by destruct (Chats.direct (Hospital.chats h) !! patient_username).
Qed.

Lemma add_general_message_thread (s : service)
    (hospital_id patient_username sender_username sender_role : string)
    (message : option string) (message_id timestamp : string) :
  Py.all Py.isspace (default "" message) = false →
  let call :=
    add_general_message s hospital_id patient_username sender_username
                        sender_role message message_id timestamp in
  let entry :=
    Message.mk message_id timestamp sender_username sender_role
               (Py.strip (default "" message)) "general" patient_username
               None in
  call.1 = Some entry
  ∧ general_thread call.2 hospital_id patient_username
    = (general_thread s hospital_id patient_username ++ [entry])%list.
Proof.
  intros Hblank. simpl. unfold add_general_message, message_text.
  rewrite strip_truthy, Hblank. simpl. split; [done|].
  unfold general_thread. simpl. rewrite !lookup_insert_eq. simpl.
  rewrite !lookup_insert_eq. simpl. f_equal.
  by destruct (hospitals s !! hospital_id).
Qed.

(** X13: [add_general_message]. A text that is empty or whitespace gives
    [None] and the service that was passed. Any other text is stored
    stripped, so the stored text is not empty and has no whitespace at
    either end; the entry goes to the end of the patient's thread, and
    when its timestamp is not earlier than those of the thread it is the
    last message [get_general_messages] returns and the one returned with
    limit 1. *)
Theorem add_general_message_read_back (s : service)
    (hospital_id patient_username sender_username sender_role : string)
    (message : option string) (message_id timestamp : string) :
  let call :=
    add_general_message s hospital_id patient_username sender_username
                        sender_role message message_id timestamp in
  let entry :=
    Message.mk message_id timestamp sender_username sender_role
               (Py.strip (default "" message)) "general" patient_username
               None in
  (Py.all Py.isspace (default "" message) = true → call = (None, s))
  ∧ (Py.all Py.isspace (default "" message) = false →
     call.1 = Some entry
     ∧ Message.text entry ≠ ""
     ∧ Py.strip (Message.text entry) = Message.text entry
     ∧ general_thread call.2 hospital_id patient_username
       = (general_thread s hospital_id patient_username ++ [entry])%list
     ∧ ((∀ m, m ∈ general_thread s hospital_id patient_username →
              String.leb (Message.timestamp m) timestamp = true) →
        (get_general_messages call.2 hospital_id patient_username None).1
        = ((get_general_messages s hospital_id patient_username None).1
           ++ [entry])%list
        ∧ (get_general_messages call.2 hospital_id patient_username
                                (Some 1)).1 = [entry])).
Proof.
  intros call entry. split.
  - intros Hblank. unfold call, add_general_message, message_text.
    by rewrite strip_truthy, Hblank.
  - intros Hblank.
    destruct (add_general_message_thread s hospital_id patient_username
                sender_username sender_role message message_id timestamp
                Hblank) as [Hentry Hthread].
    fold call entry in Hentry, Hthread.
    split; [done|]. split.
    { simpl. intros Hempty.
      pose proof (strip_truthy (default "" message)) as Ht.
      by rewrite Hempty, Hblank in Ht. }
    split; [apply strip_idempotent|]. split; [done|].
    intros Hmax. rewrite !get_general_messages_result, Hthread.
    rewrite sort_by_snoc by done. simpl. split; [done|].
    unfold Py.slice_from. simpl. rewrite length_app. simpl.
    match goal with
    | |- drop ?n _ = _ =>
        replace n
          with (length (Py.sort_by Message.timestamp
                          (general_thread s hospital_id patient_username)))
          by lia
    end.
    by rewrite drop_app_length.
Qed.

Lemma add_general_message_read_back_witness :
  let s := example_chat_service in
  let entry :=
    Message.mk "m3" "2024-01-05T10:00:00Z" "p1" "patient" "Thanks" "general"
               "p1" None in
  add_general_message s "H1" "p1" "p1" "patient" (Some "  ") "m3"
                      "2024-01-05T10:00:00Z" = (None, s)
  ∧ (add_general_message s "H1" "p1" "p1" "patient" (Some " Thanks ") "m3"
                         "2024-01-05T10:00:00Z").1 = Some entry
  ∧ (get_general_messages
       (add_general_message s "H1" "p1" "p1" "patient" (Some " Thanks ") "m3"
                            "2024-01-05T10:00:00Z").2 "H1" "p1" (Some 1)).1
    = [entry].
Proof.
  intros s entry.
  destruct (add_general_message_read_back s "H1" "p1" "p1" "patient"
              (Some "  ") "m3" "2024-01-05T10:00:00Z") as [Hblank _].
  destruct (add_general_message_read_back s "H1" "p1" "p1" "patient"
              (Some " Thanks ") "m3" "2024-01-05T10:00:00Z") as [_ Hsend].
  destruct (Hsend eq_refl) as (Hentry & _ & _ & _ & Hread).
  split; [apply Hblank; reflexivity|]. split; [exact Hentry|].
  apply Hread. intros m Hm. vm_compute in Hm.
  inversion Hm as [|? ? ? Hm']; subst; [reflexivity|].
  inversion Hm' as [|? ? ? Hm'']; subst; [reflexivity|]. inversion Hm''.
Defined.

(** X14: reading a chat creates what it does not find. For a hospital
    the store does not have, [get_general_messages] returns the empty list
    and leaves behind a hospital with no users, no notes, no alerts and
    the empty thread of the patient; the other hospitals are as they were.
    From then on the hospital counts as existing for [register_user]: an
    admin who registers with a strong password gets ['pending'] where the
    first admin of a new hospital gets [True], and a patient is registered
    where ['hospital_not_found'] was the answer. *)
Theorem chat_read_creates_hospital (sha256_hexdigest : string -> string)
    (s : service) (hospital_id patient_username : string) (limit : option Z) :
  hospitals s !! hospital_id = None →
  let r := get_general_messages s hospital_id patient_username limit in
  r.1 = []
  ∧ hospitals r.2 !! hospital_id
    = Some (Hospital.mk ∅ [] [] (Chats.mk {[patient_username := []]} ∅))
  ∧ (∀ other, other ≠ hospital_id →
              hospitals r.2 !! other = hospitals s !! other)
  ∧ current_user r.2 = current_user s
  ∧ ∀ username password full_name dob sex pronouns bio salt,
      _is_strong_password password = true →
      (register_user sha256_hexdigest s username password "admin"
                     hospital_id full_name dob sex pronouns bio salt).1
      = Bool true
      ∧ (register_user sha256_hexdigest r.2 username password "admin"
                       hospital_id full_name dob sex pronouns bio salt).1
        = Str "pending"
      ∧ (register_user sha256_hexdigest s username password "patient"
                       hospital_id full_name dob sex pronouns bio salt).1
        = Str "hospital_not_found"
      ∧ (register_user sha256_hexdigest r.2 username password "patient"
                       hospital_id full_name dob sex pronouns bio salt).1
        = Bool true.
Proof.
  intros Hnone r.
  assert (hospitals r.2 !! hospital_id
          = Some (Hospital.mk ∅ [] [] (Chats.mk {[patient_username := []]} ∅)))
    as Hcreated.
  { unfold r, get_general_messages, _ensure_general_thread. simpl.
    rewrite Hnone, lookup_insert_eq. simpl. by rewrite lookup_empty. }
  split_and!.
  - unfold r. rewrite get_general_messages_result.
    unfold general_thread. rewrite Hnone. simpl.
    destruct limit; [|done]. unfold tail_limit, Py.slice_from. simpl.
    by rewrite drop_nil.
  - done.
  - intros other Hother.
    unfold r, get_general_messages, _ensure_general_thread. simpl.
    by rewrite lookup_insert_ne.
  - done.
  - intros username password full_name dob sex pronouns bio salt Hstrong.
    split_and!.
    + rewrite register_user_accepted by (by rewrite ?Hnone).
      by rewrite Hnone.
    + rewrite register_user_accepted by (by rewrite ?Hcreated).
      by rewrite Hcreated.
    + destruct (register_user_refuses sha256_hexdigest s username password
                  "patient" hospital_id full_name dob sex pronouns bio salt)
        as (_ & Hnf & _).
      by rewrite Hnf.
    + rewrite register_user_accepted by (by rewrite ?Hcreated).
      by rewrite Hcreated.
Qed.

Lemma chat_read_creates_hospital_witness :
  let r := get_general_messages empty_service "H7" "p1" None in
  hospitals empty_service !! "H7" = None
  ∧ r.1 = []
  ∧ (register_user example_hash empty_service "admin1" "V4lid!Pass" "admin"
                   "H7" "A" "d" "x" "p" "b" "5a17").1 = Bool true
  ∧ (register_user example_hash r.2 "admin1" "V4lid!Pass" "admin"
                   "H7" "A" "d" "x" "p" "b" "5a17").1 = Str "pending".
Proof.
  intros r. split; [reflexivity|].
  destruct (chat_read_creates_hospital example_hash empty_service "H7" "p1"
              None eq_refl) as (Hempty & _ & _ & _ & Hreg).
  split; [exact Hempty|].
  destruct (Hreg "admin1" "V4lid!Pass" "A" "d" "x" "p" "b" "5a17" eq_refl)
    as (Hfirst & Hlater & _).
  split; [exact Hfirst|exact Hlater].
Defined.

(** X15: clearing a thread. [clear_general_messages] returns [True]
    exactly when the patient has a general thread; then the thread is
    empty and is still a key of the store, and [get_general_messages]
    returns the empty list. The general threads of the other patients and
    the direct threads are as they were. *)
Theorem clear_general_messages_effect (s : service)
    (hospital_id patient_username : string) :
  let r := clear_general_messages s hospital_id patient_username in
  let had :=
    hospitals s !! hospital_id
    ≫= fun h => Chats.general (Hospital.chats h) !! patient_username in
  (r.1 = true ↔ is_Some had)
  ∧ (r.1 = true →
     (hospitals r.2 !! hospital_id
      ≫= fun h => Chats.general (Hospital.chats h) !! patient_username)
     = Some []
     ∧ ∀ limit,
         (get_general_messages r.2 hospital_id patient_username limit).1 = [])
  ∧ (∀ other, other ≠ patient_username →
              general_thread r.2 hospital_id other
              = general_thread s hospital_id other)
  ∧ ∀ patient clinician,
      direct_thread r.2 hospital_id patient clinician
      = direct_thread s hospital_id patient clinician.
Proof.
  intros r had. unfold r, had. clear r had.
  setoid_rewrite get_general_messages_result.
  unfold clear_general_messages, _ensure_chat_store, general_thread,
    direct_thread, tail_limit, Py.slice_from. simpl.
  rewrite lookup_insert_eq. simpl.
  destruct (hospitals s !! hospital_id) as [h|] eqn:Hh; simpl.
  - destruct (Chats.general (Hospital.chats h) !! patient_username)
      as [thread|] eqn:Ht; simpl.
    + split_and!.
      * split; [by eexists|done].
      * intros _. rewrite lookup_insert_eq. simpl. rewrite lookup_insert_eq.
        split; [done|]. intros limit. simpl.
        destruct limit; [|done]. simpl. by rewrite drop_nil.
      * intros other Hother.
        rewrite lookup_insert_eq. simpl. by rewrite lookup_insert_ne.
      * intros patient clinician. by rewrite lookup_insert_eq.
    + split_and!.
      * split; [done|]. by intros [? ?].
      * done.
      * intros other _. by rewrite lookup_insert_eq.
      * intros patient clinician. by rewrite lookup_insert_eq.
  - rewrite lookup_empty. simpl. split_and!.
    + split; [done|]. by intros [? ?].
    + done.
    + intros other _. rewrite lookup_insert_eq. simpl.
      by rewrite lookup_empty.
    + intros patient clinician. rewrite lookup_insert_eq. simpl.
      by rewrite lookup_empty.
Qed.

Lemma clear_general_messages_effect_witness :
  (clear_general_messages example_chat_service "H1" "p1").1 = true
  ∧ (∀ limit,
       (get_general_messages
          (clear_general_messages example_chat_service "H1" "p1").2
          "H1" "p1" limit).1 = [])
  ∧ (clear_general_messages example_chat_service "H1" "p2").1 = false.
Proof.
  destruct (clear_general_messages_effect example_chat_service "H1" "p1")
    as (Hiff & Hcleared & _).
  destruct (clear_general_messages_effect example_chat_service "H1" "p2")
    as (Hiff2 & _).
  assert ((clear_general_messages example_chat_service "H1" "p1").1 = true)
    as Htrue by (apply Hiff; vm_compute; eauto).
  split; [exact Htrue|]. split; [apply (Hcleared Htrue)|].
  destruct ((clear_general_messages example_chat_service "H1" "p2").1) eqn:E;
    [|reflexivity].
  destruct (proj1 Hiff2 eq_refl) as [x Hx]. vm_compute in Hx. discriminate.
Defined.

(** X16: the limit at its edges. With the thread sorted by timestamp, a
    limit at least as large as the thread returns all of it, and a
    negative limit [-k] does not fail: [thread[k:]] drops the [k] oldest
    messages and returns the rest. The same holds for the direct
    threads. *)
Theorem message_limit_edges (s : service)
    (hospital_id patient_username clinician_username : string) :
  let general :=
    Py.sort_by Message.timestamp
               (general_thread s hospital_id patient_username) in
  let direct :=
    Py.sort_by Message.timestamp
      (direct_thread s hospital_id patient_username clinician_username) in
  (∀ n, Z.of_nat (length general) <= n →
        (get_general_messages s hospital_id patient_username (Some n)).1
        = general)
  ∧ (∀ k, 0 < k →
          (get_general_messages s hospital_id patient_username (Some (- k))).1
          = drop (Z.to_nat k) general)
  ∧ (∀ n, Z.of_nat (length direct) <= n →
          (get_direct_messages s hospital_id patient_username
                               clinician_username (Some n)).1 = direct)
  ∧ (∀ k, 0 < k →
          (get_direct_messages s hospital_id patient_username
                               clinician_username (Some (- k))).1
          = drop (Z.to_nat k) direct).
Proof.
  intros general direct.
  assert (∀ (l : list Message.t) n,
            Z.of_nat (length l) <= n → tail_limit (Some n) l = l) as Hall.
  { intros l n Hn. unfold tail_limit, Py.slice_from.
    destruct (Z.ltb_spec (- n) 0).
    - replace (Z.to_nat (Z.max 0 (Z.of_nat (length l) + - n))) with 0%nat
        by lia. done.
    - replace (Z.to_nat (Z.min (- n) (Z.of_nat (length l)))) with 0%nat
        by lia. done. }
  assert (∀ (l : list Message.t) k,
            0 < k → tail_limit (Some (- k)) l = drop (Z.to_nat k) l) as Hneg.
  { intros l k Hk. unfold tail_limit, Py.slice_from.
    rewrite Z.opp_involutive.
    destruct (Z.ltb_spec k 0); [lia|].
    destruct (Z.le_gt_cases k (Z.of_nat (length l))).
    - by rewrite Z.min_l by done.
    - rewrite Z.min_r by lia. rewrite Nat2Z.id.
      rewrite !drop_ge; [done|lia|lia]. }
  split_and!; intros;
    rewrite ?get_general_messages_result, ?get_direct_messages_result; auto.
Qed.

Lemma message_limit_edges_witness :
  let m1 := example_message "m1" "2024-01-05T08:00:00Z" "clin1" in
  let m2 := example_message "m2" "2024-01-05T09:00:00Z" "clin1" in
  (get_general_messages example_chat_service "H1" "p1" (Some 5)).1 = [m1; m2]
  ∧ (get_general_messages example_chat_service "H1" "p1" (Some (- 1))).1
    = [m2].
Proof.
  destruct (message_limit_edges example_chat_service "H1" "p1" "clin1")
    as (Hall & Hneg & _).
  split.
  - rewrite (Hall 5); [reflexivity|]. vm_compute. discriminate.
  - exact (Hneg 1 eq_refl).
Defined.

(** ** Searching notes *)

Lemma lower_char_idempotent (c : ascii) :
  Py.lower_char (Py.lower_char c) = Py.lower_char c.
Proof. by destruct c as [[] [] [] [] [] [] [] []]; vm_compute. Qed.

Lemma lower_idempotent (s : string) : Py.lower (Py.lower s) = Py.lower s.
Proof.
  induction s as [|c s IH]; simpl; [done|].
  by rewrite lower_char_idempotent, IH.
Qed.

Lemma lower_truthy (s : string) : Py.truthy (Py.lower s) = Py.truthy s.
Proof. by destruct s. Qed.

(** X17: [search_notes]. The empty term returns what
    [get_notes_for_patient] returns. The case of the letters of the term
    does not matter: the term and its lower-case form give the same
    result. A note is in the result exactly when the caller may see it
    and, for a term that is not empty, the lower-case term occurs in the
    lower-case notes or diagnoses. *)
Theorem search_notes_case_insensitive (s : service)
    (hospital_id patient_id search_term : string) :
  search_notes s hospital_id patient_id "" =
  get_notes_for_patient s hospital_id patient_id
  ∧ search_notes s hospital_id patient_id (Py.lower search_term)
    = search_notes s hospital_id patient_id search_term
  ∧ ∀ n,
      n ∈ search_notes s hospital_id patient_id search_term
      ↔ n ∈ get_notes_for_patient s hospital_id patient_id
        ∧ (search_term = ""
           ∨ Py.str_in (Py.lower search_term) (Py.lower (Note.notes n)) = true
           ∨ Py.str_in (Py.lower search_term) (Py.lower (Note.diagnoses n))
             = true).
Proof.
  split_and!.
  - done.
  - unfold search_notes. by rewrite lower_truthy, lower_idempotent.
  - intros n. unfold search_notes.
    destruct search_term as [|c term]; simpl.
    + split; [by intros ?; split; [|left]|by intros [? _]].
    + rewrite list_elem_of_filter. unfold note_matches.
      rewrite orb_true_iff. split.
      * intros [Hm Hn]. split; [done|]. by right.
      * intros [Hn [Hm|Hm]]; [done|]. by split.
Qed.

Lemma search_notes_case_insensitive_witness :
  let s := example_service (Some (example_user "p1" "patient")) in
  search_notes s "H1" "p1" "OBSERV" = [example_hidden_note]
  ∧ search_notes s "H1" "p1" "OBSERV" = search_notes s "H1" "p1" "observ".
Proof.
  intros s. split; [reflexivity|].
  destruct (search_notes_case_insensitive s "H1" "p1" "OBSERV")
    as (_ & Hcase & _).
  rewrite <- Hcase. reflexivity.
Defined.

(** ** AI feedback *)





Lemma elem_of_user_values (s : service) (hospital_id : string)
    (d : UserData.t) :
  d ∈ user_values s hospital_id
  ↔ ∃ key, get_all_users s hospital_id !! key = Some d.
Proof.
  unfold user_values, get_all_users. rewrite list_elem_of_fmap. split.
  - intros ([key d'] & -> & Hin). exists key.
    by apply elem_of_map_to_list in Hin.
  - intros [key Hkey]. exists (key, d). split; [done|].
    by apply elem_of_map_to_list.
Qed.

(** X19: who sees pending feedback. [get_pending_feedback] returns notes
    of the hospital whose feedback is pending, in their order. A caller
    who is not a clinician gets all of them: an admin, but a patient and
    a caller without a session as well. A clinician gets those whose
    [patient_id] is the username of a patient record that lists the
    clinician, so a sublist of what the others get. *)
Theorem get_pending_feedback_view (s : service) (hospital_id : string) :
  let stored := from_option Hospital.notes [] (hospitals s !! hospital_id) in
  let pending :=
    filter (fun n => has_pending_feedback n = true) stored in
  get_pending_feedback s hospital_id `sublist_of` pending
  ∧ ((∀ u, current_user s = Some u → User.role u ≠ "clinician") →
     get_pending_feedback s hospital_id = pending)
  ∧ ∀ u, current_user s = Some u → User.role u = "clinician" →
      ∀ n, n ∈ get_pending_feedback s hospital_id
           ↔ n ∈ pending
             ∧ ∃ key d,
                 get_all_users s hospital_id !! key = Some d
                 ∧ UserData.role d = "patient"
                 ∧ User.username u ∈ UserData.assigned d
                 ∧ UserData.username d = Note.patient_id n.
Proof.
  intros stored pending. unfold get_pending_feedback.
  assert (pending
          = filter (fun n => has_pending_feedback n = true)
                   (from_option Hospital.notes []
                                (hospitals s !! hospital_id))) as Hpending
    by done.
  clearbody pending. clear stored.
  destruct (hospitals s !! hospital_id) as [h|] eqn:Hh.
  - simpl in Hpending. rewrite <- Hpending.
    destruct (current_user s) as [u|] eqn:Hu.
    + case_bool_decide as Hrole.
      * unfold get_all_patients. rewrite Hu.
        rewrite (bool_decide_eq_true_2 _ Hrole).
        split_and!; [apply sublist_filter|by intros Hno; destruct (Hno u)|].
        intros u' [= <-] _ n.
        rewrite list_elem_of_filter, list_elem_of_fmap.
        split.
        -- intros [(d & Hd & Hin) Hn]. split; [done|].
           apply list_elem_of_filter in Hin as [Hassigned Hin].
           apply list_elem_of_filter in Hin as [Hpatient Hin].
           apply elem_of_user_values in Hin as [key Hkey].
           by exists key, d.
        -- intros [Hn (key & d & Hkey & Hpatient & Hassigned & Hname)].
           split; [|done]. exists d. split; [done|].
           apply list_elem_of_filter. split; [done|].
           apply list_elem_of_filter. split; [done|].
           apply elem_of_user_values. by exists key.
      * split_and!; [done|done|]. by intros u' [= <-] ?.
    + split_and!; done.
  - simpl in Hpending. subst pending.
    destruct (current_user s) as [u|]; split_and!; try done.
    intros u' _ _ n. split; [by intros ?%elem_of_nil|].
    by intros [?%elem_of_nil _].
Qed.

Lemma get_pending_feedback_view_witness :
  let note :=
    Note.set_ai_feedback (Some (Feedback.mk "Rest well" "pending"))
                         example_private_note in
  let hospital :=
    Hospital.set_notes [note; example_hidden_note] example_hospital in
  let s caller := mkService (Some caller) (<["H1" := hospital]> ∅) in
  get_pending_feedback (s (example_user "p2" "patient")) "H1" = [note]
  ∧ get_pending_feedback (s (example_user "clin2" "clinician")) "H1" = [].
Proof.
  intros note hospital s. split.
  - destruct (get_pending_feedback_view (s (example_user "p2" "patient"))
                "H1") as (_ & Hall & _).
    rewrite Hall; [reflexivity|]. by intros u [= <-].
  - destruct (get_pending_feedback_view (s (example_user "clin2" "clinician"))
                "H1") as (Hsub & _ & Hclin).
    destruct (get_pending_feedback (s (example_user "clin2" "clinician"))
                "H1") as [|n l] eqn:Hl; [reflexivity|].
    exfalso.
    destruct (proj1 (Hclin _ eq_refl eq_refl n) ltac:(by left))
      as (_ & key & d & Hkey & Hrole & Hassigned & _).
    assert (d ∈ user_values (s (example_user "clin2" "clinician")) "H1")
      as Hd by (apply elem_of_user_values; eauto).
    assert (∀ d', d' ∈ user_values (s (example_user "clin2" "clinician")) "H1"
                  → "clin2" ∉ UserData.assigned d') as Hnone.
    { apply Forall_forall. vm_compute.
      repeat (constructor;
              [intros H; repeat (inversion H as [|? ? ? H']; clear H;
                                 rename H' into H)|]).
      constructor. }
    by apply (Hnone d Hd).
Defined.

(** ** Listing patients *)

(** X20: [get_all_patients]. Without a session the method reads
    [current_user.role] of [None] at the first patient record: it raises
    [AttributeError] when the hospital has a patient record and returns
    the empty list when it has none. A clinician gets the patient records
    that list the clinician, every other logged-in caller gets all patient
    records. *)
Theorem get_all_patients_view (s : service) (hospital_id : string) :
  let is_patient d :=
    (∃ key, get_all_users s hospital_id !! key = Some d)
    ∧ UserData.role d = "patient" in
  (current_user s = None →
   (get_all_patients s hospital_id = Py.Raise (Py.AttributeError "role")
    ↔ ∃ d, is_patient d)
   ∧ (get_all_patients s hospital_id = Py.Ok [] ↔ ¬ ∃ d, is_patient d))
  ∧ ∀ u, current_user s = Some u →
      ∃ l,
        get_all_patients s hospital_id = Py.Ok l
        ∧ ∀ d, d ∈ l
               ↔ is_patient d
                 ∧ (User.role u = "clinician" →
                    User.username u ∈ UserData.assigned d).
Proof.
  intros is_patient. unfold get_all_patients.
  assert (∀ d, d ∈ filter (fun d => UserData.role d = "patient")
                          (user_values s hospital_id) ↔ is_patient d)
    as Hpatients.
  { intros d. rewrite list_elem_of_filter, elem_of_user_values.
    unfold is_patient. tauto. }
  split.
  - intros ->.
    destruct (filter _ (user_values s hospital_id)) as [|d l] eqn:Hl.
    + assert (¬ ∃ d, is_patient d) as Hno.
      { intros [d Hd]. by apply Hpatients, elem_of_nil in Hd. }
      split; split; done.
    + assert (∃ d, is_patient d) as Hyes.
      { exists d. apply Hpatients. by left. }
      split; split; done.
  - intros u ->. case_bool_decide as Hrole; eexists; (split; [done|]).
    + intros d. rewrite list_elem_of_filter, Hpatients. tauto.
    + intros d. rewrite Hpatients. tauto.
Qed.

Lemma get_all_patients_view_witness :
  get_all_patients (example_service None) "H1"
  = Py.Raise (Py.AttributeError "role")
  ∧ get_all_patients (example_service None) "H9" = Py.Ok [].
Proof.
  destruct (get_all_patients_view (example_service None) "H1") as [Hnone _].
  destruct (get_all_patients_view (example_service None) "H9") as [Hnone' _].
  split.
  - apply (Hnone eq_refl).
    exists (example_patient_record "p1" ["clin1"]).
    split; [|reflexivity]. by exists (user_key "p1" "patient").
  - apply (Hnone' eq_refl). intros (d & [key Hkey] & _).
    vm_compute in Hkey. discriminate.
Defined.

(** ** Hospitals are kept apart *)




(** ** Well-formed user records *)

Section Records.

Variable sha256_hexdigest : string -> string.

Local Abbreviation record_ok := (record_ok sha256_hexdigest).
Local Abbreviation users_ok := (users_ok sha256_hexdigest).
Local Abbreviation records_ok := (records_ok sha256_hexdigest).

Lemma users_ok_empty : users_ok ∅.
Proof. intros key d. by rewrite lookup_empty. Qed.

Lemma users_ok_insert (users : gmap string UserData.t) (key : string)
    (d : UserData.t) :
  users_ok users → record_ok key d → users_ok (<[key := d]> users).
Proof.
  intros Hus Hd key' d'. rewrite lookup_insert.
  case_decide; [by intros [= <-]; subst|apply Hus].
Qed.

Lemma users_ok_delete (users : gmap string UserData.t) (key : string) :
  users_ok users → users_ok (delete key users).
Proof.
  intros Hus key' d'. rewrite lookup_delete.
  case_decide; [done|apply Hus].
Qed.

Lemma record_ok_set_assigned (key : string) (d : UserData.t)
    (l : list string) :
  record_ok key d → record_ok key (UserData.set_assigned l d).
Proof.
  intros (? & ? & ? & _ & ?). by split_and!.
Qed.

Lemma record_ok_set_status (key : string) (d : UserData.t) :
  record_ok key d → record_ok key (UserData.set_status "approved" d).
Proof.
  intros (? & ? & ? & ? & ?). split_and!; try done. by right.
Qed.

Lemma users_ok_drop_assignment (users : gmap string UserData.t)
    (username : string) :
  users_ok users → users_ok (drop_assignment username <$> users).
Proof.
  intros Hus key d. rewrite lookup_fmap.
  destruct (users !! key) as [d'|] eqn:Hd; simpl; [|done].
  intros [= <-]. unfold drop_assignment.
  repeat case_bool_decide; try by eapply Hus.
  apply record_ok_set_assigned. by eapply Hus.
Qed.

Lemma records_ok_set_hospital (s : service) (hospital_id : string)
    (hospital : Hospital.t) :
  records_ok s → users_ok (Hospital.users hospital) →
  records_ok (set_hospital hospital_id hospital s).
Proof.
  intros Hs Hh h' hospital'. simpl. rewrite lookup_insert.
  case_decide; [by intros [= <-]|apply Hs].
Qed.

Lemma records_ok_lookup (s : service) (hospital_id : string) :
  records_ok s →
  users_ok
    (Hospital.users (default Hospital.empty (hospitals s !! hospital_id))).
Proof.
  intros Hs. destruct (hospitals s !! hospital_id) as [h|] eqn:Hh; simpl.
  - by eapply Hs.
  - apply users_ok_empty.
Qed.

Ltac records_step :=
  repeat first
    [ done
    | apply records_ok_set_hospital
    | apply users_ok_insert
    | apply users_ok_delete
    | apply users_ok_drop_assignment
    | apply records_ok_lookup
    | apply record_ok_set_assigned
    | apply record_ok_set_status
    | match goal with
      | H : records_ok ?s, E : hospitals ?s !! _ = Some ?h
        |- users_ok (Hospital.users ?h) => exact (H _ _ E)
      | H : records_ok ?s, E : hospitals ?s !! _ = Some ?h,
        E' : Hospital.users ?h !! _ = Some ?d
        |- record_ok _ ?d => exact (H _ _ E _ _ E')
      | H : match ?x with _ => _ end = _ |- _ =>
          destruct x eqn:?; simplify_eq
      | |- context [match ?x with _ => _ end] => destruct x eqn:?
      end
    | progress simpl ].

Lemma exec_records_ok (s : service) (o : op) :
  records_ok s → records_ok (exec sha256_hexdigest s o).
Proof.
  intros Hs. destruct o; simpl.
  - unfold register_user. records_step.
    all: split_and!; simpl; try done; eauto.
    all: intros _;
      match goal with
      | H : _ && _ = true |- _ => apply andb_true_iff in H as [Hr _]
      end;
      apply orb_true_iff in Hr as [Hr|Hr]; apply bool_decide_eq_true in Hr;
      auto.
  - unfold login. records_step.
  - done.
  - unfold add_note. records_step.
  - unfold generate_and_store_ai_feedback. records_step.
  - unfold approve_ai_feedback. records_step.
  - unfold reject_ai_feedback. records_step.
  - unfold delete_note. records_step.
  - unfold approve_user. records_step.
  - unfold update_user_profile. records_step.
    all: match goal with
         | H : hospitals _ !! _ = Some ?h,
           H' : Hospital.users ?h !! _ = Some ?d |- _ =>
             destruct (Hs _ _ H _ _ H') as (? & ? & ? & ? & ?)
         end; split_and!; simpl; eauto.
  - unfold update_note. records_step.
  - unfold delete_user. records_step.
  - unfold assign_clinician_to_patient. records_step.
  - unfold unassign_clinician_from_patient. records_step.
  - unfold dismiss_alert. records_step.
  - unfold _ensure_chat_store. records_step.
  - unfold add_general_message, _ensure_general_thread. records_step.
  - unfold clear_general_messages, _ensure_chat_store. records_step.
  - unfold get_general_messages, _ensure_general_thread. records_step.
  - unfold add_direct_message, _ensure_direct_thread. records_step.
  - unfold get_direct_messages, _ensure_direct_thread. records_step.
  - unfold clear_direct_messages. records_step.
Qed.

Lemma run_records_ok (ops : list op) (s : service) :
  records_ok s → records_ok (run sha256_hexdigest s ops).
Proof.
  revert s. induction ops as [|o ops IH]; intros s Hs; simpl; [done|].
  by apply IH, exec_records_ok.
Qed.

(** X22: the user records of a reachable state. In every state the
    service reaches from the empty store, a record is stored under the
    key of its own username and role; its status is ['pending'] or
    ['approved'] and only admins and clinicians are pending; it has a salt
    and an assignment list; and its password hash is the hash of its salt
    followed by a password, so no method stores a password or an unsalted
    hash. *)
Theorem reachable_records_ok (s : service) (hospital_id key : string)
    (hospital : Hospital.t) (d : UserData.t) :
  reachable sha256_hexdigest s →
  hospitals s !! hospital_id = Some hospital →
  Hospital.users hospital !! key = Some d →
  key = user_key (UserData.username d) (UserData.role d)
  ∧ (UserData.status d = "pending" ∨ UserData.status d = "approved")
  ∧ (UserData.status d = "pending" →
     UserData.role d = "admin" ∨ UserData.role d = "clinician")
  ∧ is_Some (UserData.assigned_clinicians d)
  ∧ ∃ salt password,
      UserData.salt d = Some salt
      ∧ UserData.password_hash d = sha256_hexdigest (salt +:+ password).
Proof.
  intros [ops <-] Hh Hd.
  assert (records_ok empty_service) as Hempty.
  { intros h hospital'. simpl. by rewrite lookup_empty. }
  exact (run_records_ok ops empty_service Hempty _ _ Hh _ _ Hd).
Qed.

End Records.

Lemma reachable_records_ok_witness :
  reachable example_hash example_run_service
  ∧ hospitals example_run_service !! "H1" = Some example_run_hospital
  ∧ Hospital.users example_run_hospital !! user_key "p1" "patient"
    = Some example_run_patient
  ∧ UserData.status example_run_patient = "approved"
  ∧ ∃ salt password,
      UserData.salt example_run_patient = Some salt
      ∧ UserData.password_hash example_run_patient
        = example_hash (salt +:+ password).
Proof.
  assert (reachable example_hash example_run_service) as Hreach
    by (exists example_run; reflexivity).
  assert (hospitals example_run_service !! "H1" = Some example_run_hospital)
    as Hh by (vm_compute; reflexivity).
  assert (Hospital.users example_run_hospital !! user_key "p1" "patient"
          = Some example_run_patient) as Hd by (vm_compute; reflexivity).
  destruct (reachable_records_ok example_hash example_run_service "H1"
              (user_key "p1" "patient") example_run_hospital
              example_run_patient Hreach Hh Hd)
    as (_ & _ & _ & _ & Hhash).
  split; [exact Hreach|]. split; [exact Hh|]. split; [exact Hd|].
  split; [vm_compute; reflexivity|exact Hhash].
Defined.

(** ** The key of a user *)

Lemma list_ascii_of_string_app (a b : string) :
  list_ascii_of_string (a +:+ b)
  = (list_ascii_of_string a ++ list_ascii_of_string b)%list.
Proof. induction a as [|c a IH]; simpl; [done|]. by rewrite IH. Qed.

(** X23: [f"{username}_{role}"] tells the accounts apart. For the three
    roles of the application, two keys are equal only when the usernames
    are equal and the roles are equal, also when a username contains
    underscores or ends in the name of a role. *)
Theorem user_key_injective (username1 role1 username2 role2 : string) :
  role1 = "patient" ∨ role1 = "clinician" ∨ role1 = "admin" →
  role2 = "patient" ∨ role2 = "clinician" ∨ role2 = "admin" →
  user_key username1 role1 = user_key username2 role2 →
  username1 = username2 ∧ role1 = role2.
Proof.
  intros Hr1 Hr2 Hkey.
  apply (f_equal list_ascii_of_string) in Hkey.
  unfold user_key in Hkey. rewrite !list_ascii_of_string_app in Hkey.
  apply (f_equal (@rev ascii)) in Hkey.
  rewrite !rev_app_distr in Hkey.
  assert (∀ a b : string,
            rev (list_ascii_of_string a) = rev (list_ascii_of_string b) →
            a = b) as Hinj.
  { intros a b Hab. apply (f_equal (@rev ascii)) in Hab.
    rewrite !rev_involutive in Hab.
    apply (f_equal string_of_list_ascii) in Hab.
    by rewrite !string_of_list_ascii_of_string in Hab. }
  destruct Hr1 as [->|[->| ->]], Hr2 as [->|[->| ->]]; simpl in Hkey;
    try discriminate Hkey;
    (split; [|done]); apply Hinj; by simplify_eq.
Qed.

Lemma user_key_injective_witness :
  user_key "a_patient" "admin" ≠ user_key "a" "patient"
  ∧ user_key "ann" "clinician" ≠ user_key "ann" "admin".
Proof.
  split; intros Hkey.
  - destruct (user_key_injective "a_patient" "admin" "a" "patient")
      as [Hname _]; [by right; right|by left|exact Hkey|discriminate Hname].
  - destruct (user_key_injective "ann" "clinician" "ann" "admin")
      as [_ Hrole]; [by right; left|by right; right|exact Hkey
                    |discriminate Hrole].
Defined.

(** ** Editing a note *)



(** ** Approval and the staff lists *)

(** X25: approval moves a clinician from the pending list to the list of
    clinicians. A clinician record of the hospital that is pending is in
    [get_pending_users] for the role clinician and not in
    [get_all_clinicians]; [approve_user] returns [True], and afterwards
    the record with status approved is in [get_all_clinicians], not in
    [get_pending_users], and is what [get_user_by_username] returns.
    [approve_user] on a key the hospital does not have returns [False] and
    changes nothing. *)
Theorem approve_user_lists (s : service) (username hospital_id : string)
    (hospital : Hospital.t) (d : UserData.t) :
  hospitals s !! hospital_id = Some hospital →
  Hospital.users hospital !! user_key username "clinician" = Some d →
  UserData.role d = "clinician" →
  UserData.status d = "pending" →
  let approved := UserData.set_status "approved" d in
  ∃ s',
    approve_user s username "clinician" hospital_id = (true, s')
    ∧ d ∈ get_pending_users s hospital_id "clinician"
    ∧ (d ∉ get_all_clinicians s hospital_id)
    ∧ approved ∈ get_all_clinicians s' hospital_id
    ∧ (approved ∉ get_pending_users s' hospital_id "clinician")
    ∧ get_user_by_username s' hospital_id username "clinician"
      = Some approved
    ∧ ∀ other role,
        Hospital.users hospital !! user_key other role = None →
        approve_user s other role hospital_id = (false, s).
Proof.
  intros Hh Hd Hrole Hstatus approved.
  unfold approve_user at 1. rewrite Hh, Hd.
  eexists. split; [reflexivity|].
  unfold get_pending_users, get_all_clinicians, get_user_by_username.
  rewrite !list_elem_of_filter, !elem_of_user_values.
  unfold get_all_users. simpl. rewrite lookup_insert_eq, Hh. simpl.
  split; [|split; [|split; [|split; [|split]]]].
  - split; [done|]. by eexists.
  - intros [[_ Hst] _]. by rewrite Hstatus in Hst.
  - split; [done|].
    exists (user_key username "clinician"). by rewrite lookup_insert_eq.
  - by intros [[_ Hst] _].
  - by rewrite lookup_insert_eq.
  - intros other role Hnone. unfold approve_user. by rewrite Hh, Hnone.
Qed.

Lemma approve_user_lists_witness :
  let s :=
    (register_user example_hash (example_service None) "clin3" "V4lid!Pass"
                   "clinician" "H1" "N" "d" "x" "p" "b" "77aa").2 in
  let d :=
    UserData.mk "clin3" (example_hash ("77aa" +:+ "V4lid!Pass")) "clinician"
                (Some "77aa") "pending" "N" "d" "x" "p" "b" (Some []) in
  ∃ s',
    approve_user s "clin3" "clinician" "H1" = (true, s')
    ∧ d ∈ get_pending_users s "H1" "clinician"
    ∧ UserData.set_status "approved" d ∈ get_all_clinicians s' "H1".
Proof.
  intros s d.
  set (hospital := default Hospital.empty (hospitals s !! "H1")).
  assert (hospitals s !! "H1" = Some hospital) as Hh
    by (vm_compute; reflexivity).
  destruct (approve_user_lists s "clin3" "H1" hospital d Hh)
    as (s' & Hcall & Hpending & _ & Happroved & _).
  - vm_compute. reflexivity.
  - reflexivity.
  - reflexivity.
  - exists s'. split; [exact Hcall|]. split; [exact Hpending|exact Happroved].
Defined.

(** ** Order of the messages read *)

Lemma leb_refl (a : string) : String.leb a a = true.
Proof. by destruct (String.leb_total a a). Qed.

(** Sorting keeps the store order among messages of one timestamp. *)
Lemma sort_by_stable {A} (key : A -> string) (t : string) (l : list A) :
  filter (fun m => key m = t) (Py.sort_by key l)
  = filter (fun m => key m = t) l.
Proof.
  assert (∀ x m,
            filter (fun m => key m = t) (Py.insert_by key x m)
            = filter (fun m => key m = t) (x :: m)) as Hins.
  { intros x m. induction m as [|y m IH]; simpl; [done|].
    destruct (String.leb (key x) (key y)) eqn:Hxy; [done|].
    rewrite filter_cons, IH, !filter_cons.
    destruct (decide (key y = t)) as [Hy|Hy],
             (decide (key x = t)) as [Hx|Hx]; try done.
    rewrite Hx, Hy, leb_refl in Hxy. done. }
  induction l as [|x l IH]; simpl; [done|].
  by rewrite Hins, !filter_cons, IH.
Qed.

(** X26: what the readers return without a limit of 0. The result of
    [get_general_messages] and of [get_direct_messages] is in ascending
    order of timestamp; without a limit it holds exactly the messages of
    the thread, and messages with the same timestamp, which has a
    precision of one second, keep the order in which they were stored;
    with a limit of at least 1 it is the end of that sorted list and not
    longer than the limit. *)
Theorem thread_reads_sorted (s : service)
    (hospital_id patient_username clinician_username : string)
    (limit : option Z) :
  let general :=
    (get_general_messages s hospital_id patient_username limit).1 in
  let direct :=
    (get_direct_messages s hospital_id patient_username clinician_username
                         limit).1 in
  let general_stored := general_thread s hospital_id patient_username in
  let direct_stored :=
    direct_thread s hospital_id patient_username clinician_username in
  Sorted not_later general
  ∧ Sorted not_later direct
  ∧ (limit = None →
     general ≡ₚ general_stored
     ∧ direct ≡ₚ direct_stored
     ∧ ∀ t,
         filter (fun m => Message.timestamp m = t) general
         = filter (fun m => Message.timestamp m = t) general_stored
         ∧ filter (fun m => Message.timestamp m = t) direct
           = filter (fun m => Message.timestamp m = t) direct_stored)
  ∧ ∀ n, limit = Some n → 0 < n →
      Z.of_nat (length general) <= n
      ∧ Z.of_nat (length direct) <= n
      ∧ general
        = drop (length general_stored - Z.to_nat n)
               (Py.sort_by Message.timestamp general_stored)
      ∧ direct
        = drop (length direct_stored - Z.to_nat n)
               (Py.sort_by Message.timestamp direct_stored).
Proof.
  intros general direct general_stored direct_stored.
  destruct (get_general_messages_sorted s hospital_id patient_username limit)
    as (Hgs & Hgp & Hgl).
  destruct (get_direct_messages_sorted s hospital_id patient_username
              clinician_username limit) as (Hds & Hdp & Hdl).
  split; [done|]. split; [done|]. split.
  - intros ->. split; [by apply Hgp|]. split; [by apply Hdp|].
    intros t. unfold general, direct.
    rewrite get_general_messages_result, get_direct_messages_result.
    simpl. by rewrite !sort_by_stable.
  - intros n -> Hn.
    destruct (Hgl n eq_refl Hn) as [Hg1 Hg2].
    destruct (Hdl n eq_refl Hn) as [Hd1 Hd2].
    split; [done|]. split; [done|].
    unfold general_stored, direct_stored.
    rewrite <- (Permutation_length
                  (sort_by_perm Message.timestamp
                     (general_thread s hospital_id patient_username))).
    rewrite <- (Permutation_length
                  (sort_by_perm Message.timestamp
                     (direct_thread s hospital_id patient_username
                                    clinician_username))).
    done.
Qed.

Lemma thread_reads_sorted_witness :
  let m1 := example_message "m1" "2024-01-05T08:00:00Z" "clin1" in
  let m2 := example_message "m2" "2024-01-05T09:00:00Z" "clin1" in
  (get_general_messages example_chat_service "H1" "p1" (Some 1)).1
  = drop (2 - 1) (Py.sort_by Message.timestamp [m2; m1])
  ∧ Sorted not_later
      (get_direct_messages example_chat_service "H1" "p1" "clin1" None).1.
Proof.
  destruct (thread_reads_sorted example_chat_service "H1" "p1" "clin1"
              (Some 1)) as (_ & _ & _ & Hlimit).
  destruct (thread_reads_sorted example_chat_service "H1" "p1" "clin1" None)
    as (_ & Hsorted & _).
  destruct (Hlimit 1 eq_refl eq_refl) as (_ & _ & Hlast & _).
  split; [exact Hlast|exact Hsorted].
Defined.

(** ** Direct threads *)




